(** * The spend-permission action of the mini-app full demo

    A shallow embedding of
    [mini-app-full-demo/src/components/actions/request-spend-permission.tsx]:
    the React component [RequestSpendPermissionAction], its form state, the
    two wallet effects, the asynchronous click handler [handleRequest] and the
    button it is attached to.

    The definitions come in four parts.
    - [JS]: the fragment of the JavaScript built-ins the component calls on
      its form fields: truthiness, [Number(string)], [BigInt(string)],
      [String(number)], and the completion records of throwing code.
    - The component: its state cells, effects, button, and [handleRequest],
      written over a [Host] that stands for what the Base Account SDK and the
      engine own (the provider object, the response of
      [requestSpendPermission] and its JSON text, the wording of a
      [SyntaxError]).
    - The event system of the rendered component: edits, wallet changes,
      clicks and the settlement of the SDK promise.
    - A concrete host, with [JSON.stringify] on plain data, on which the
      component runs.

    The properties follow: the agreement of the numeric built-ins on decimal
    numerals, the behaviour of one invocation of [handleRequest], and the
    invariant of the event system. *)

From Stdlib Require Import ZArith NArith List Bool String Ascii Lia.
From Stdlib Require Import Floats.SpecFloat.
From Stdlib Require Import DecimalN DecimalPos.
Import ListNotations.

Set Implicit Arguments.
Set Warnings "-register-all".

(* ===================================================================== *)
(** ** JavaScript values used by the component                            *)
(* ===================================================================== *)

Module JS.

(** A JavaScript string is a sequence of UTF-16 code units. *)
Definition codeunit := N.
Definition jsstring := list codeunit.

(** A literal of the source text, as code units (the literals of this
    component are all ASCII). *)
Definition js (s : string) : jsstring :=
  map N_of_ascii (list_ascii_of_string s).

Fixpoint jsstring_eqb (a b : jsstring) : bool :=
  match a, b with
  | [], [] => true
  | x :: a', y :: b' => N.eqb x y && jsstring_eqb a' b'
  | _, _ => false
  end.

(** ToBoolean on a string: only the empty string is falsy. *)
Definition truthy_string (s : jsstring) : bool :=
  match s with [] => false | _ :: _ => true end.

(** *** Completion records *)

(** What a [catch] clause can observe of a thrown value: whether it is an
    instance of [Error], and then its [message]. *)
Inductive thrown : Type :=
| ErrorObj (message : jsstring)
| NonError.

Inductive completion (A : Type) : Type :=
| Normal (a : A)
| Throw (e : thrown).
Arguments Normal {A} a.
Arguments Throw {A} e.

(** *** White space and digits of numeric strings *)

(** StrWhiteSpaceChar: WhiteSpace (TAB, VT, FF, ZWNBSP and the space
    separators) and LineTerminator (LF, CR, LS, PS). *)
Definition is_StrWhiteSpaceChar (c : codeunit) : bool :=
  ((9 <=? c) && (c <=? 13) || (c =? 32) || (c =? 160) || (c =? 5760)
   || (8192 <=? c) && (c <=? 8202) || (c =? 8232) || (c =? 8233)
   || (c =? 8239) || (c =? 8287) || (c =? 12288) || (c =? 65279))%N.

Fixpoint drop_ws (s : jsstring) : jsstring :=
  match s with
  | c :: s' => if is_StrWhiteSpaceChar c then drop_ws s' else s
  | [] => []
  end.

(** Leading and trailing StrWhiteSpace removed. *)
Definition trim (s : jsstring) : jsstring :=
  rev (drop_ws (rev (drop_ws s))).

(** The value of one digit in the given radix (2, 8, 10 or 16). *)
Definition digit_value (radix : N) (c : codeunit) : option N :=
  let v := (if (48 <=? c) && (c <=? 57) then Some (c - 48)
            else if (97 <=? c) && (c <=? 102) then Some (c - 87)
            else if (65 <=? c) && (c <=? 70) then Some (c - 55)
            else None)%N in
  match v with
  | Some d => if (d <? radix)%N then Some d else None
  | None => None
  end.

Fixpoint digits_acc (radix : N) (acc : N) (s : jsstring) : option N :=
  match s with
  | [] => Some acc
  | c :: s' =>
      match digit_value radix c with
      | Some d => digits_acc radix (radix * acc + d)%N s'
      | None => None
      end
  end.

(** The decimal digits, and the texts made of them only. *)
Definition is_decimal (c : codeunit) : bool := ((48 <=? c) && (c <=? 57))%N.

Definition all_decimal (s : jsstring) : Prop :=
  Forall (fun c => is_decimal c = true) s.

(** A non-empty run of digits and nothing else. *)
Definition digits (radix : N) (s : jsstring) : option N :=
  match s with
  | [] => None
  | _ :: _ => digits_acc radix 0%N s
  end.

(** NonDecimalIntegerLiteral: [0b], [0o] or [0x] (either case) followed by
    digits of that radix; no sign is allowed in front. *)
Definition NonDecimalIntegerLiteral (s : jsstring) : option N :=
  match s with
  | 48%N :: p :: ds =>
      if ((p =? 98) || (p =? 66))%N then digits 2 ds
      else if ((p =? 111) || (p =? 79))%N then digits 8 ds
      else if ((p =? 120) || (p =? 88))%N then digits 16 ds
      else None
  | _ => None
  end.

(** An optional sign in front of the rest; [true] is [-]. *)
Definition split_sign (s : jsstring) : bool * jsstring :=
  match s with
  | 43%N :: r => (false, r)
  | 45%N :: r => (true, r)
  | _ => (false, s)
  end.

(** *** BigInt(string) *)

(** StringToBigInt: the empty (or all-white) string is [0n]; otherwise a
    StrIntegerLiteral, that is a signed run of decimal digits or a
    non-decimal integer literal; [None] when the text is neither. *)
Definition StringToBigInt (s : jsstring) : option Z :=
  match trim s with
  | [] => Some 0%Z
  | t =>
      match NonDecimalIntegerLiteral t with
      | Some n => Some (Z.of_N n)
      | None =>
          let '(neg, r) := split_sign t in
          match digits 10 r with
          | Some n => Some (if neg then (- Z.of_N n)%Z else Z.of_N n)
          | None => None
          end
      end
  end.

(** *** Number(string) *)

(** Numbers are IEEE 754 binary64 values. *)
Definition number := spec_float.
Definition prec : Z := 53.
Definition emax : Z := 1024.

Definition number_of_Z (z : Z) : number := binary_normalize prec emax z 0 false.
Definition number_of_N (n : N) : number := number_of_Z (Z.of_N n).

(** ToBoolean on a number: [NaN], [+0] and [-0] are falsy. *)
Definition truthy_number (x : number) : bool :=
  match x with
  | S754_nan | S754_zero _ => false
  | _ => true
  end.

(** The operator [a || b] on numbers. *)
Definition or_number (a b : number) : number :=
  if truthy_number a then a else b.

(** The longest prefix of decimal digits, and what follows it. *)
Fixpoint span_digits (s : jsstring) : jsstring * jsstring :=
  match s with
  | c :: s' =>
      match digit_value 10 c with
      | Some _ => let '(d, r) := span_digits s' in (c :: d, r)
      | None => ([], s)
      end
  | [] => ([], [])
  end.

(** ExponentPart, if any: [e] or [E], an optional sign, digits.  The result
    is the exponent; [None] is a malformed tail. *)
Definition exponent_part (s : jsstring) : option Z :=
  match s with
  | [] => Some 0%Z
  | c :: r =>
      if ((c =? 101) || (c =? 69))%N then
        let '(neg, ds) := split_sign r in
        match digits 10 ds with
        | Some n => Some (if neg then (- Z.of_N n)%Z else Z.of_N n)
        | None => None
        end
      else None
  end.

(** The binary64 value nearest to [m * 10^e] (ties to even), with the sign
    [neg]; zero keeps its sign. *)
Definition round_decimal (neg : bool) (m : N) (e : Z) : number :=
  match m with
  | N0 => S754_zero neg
  | Npos p =>
      match e with
      | Zneg k =>
          SFdiv prec emax (S754_finite neg p 0) (S754_finite false (10 ^ k)%positive 0)
      | _ => binary_normalize prec emax
               (if neg then Z.neg p * 10 ^ e else Z.pos p * 10 ^ e)%Z 0 neg
      end
  end.

(** StrUnsignedDecimalLiteral: [Infinity], or digits with an optional
    fraction and an optional exponent; at least one digit before or after
    the dot. *)
Definition StrUnsignedDecimalLiteral (neg : bool) (s : jsstring) : option number :=
  if jsstring_eqb s (js "Infinity") then Some (S754_infinity neg)
  else
    let '(ip, r1) := span_digits s in
    let '(fp, r2) :=
      match r1 with
      | 46%N :: r => span_digits r
      | _ => ([], r1)
      end in
    match ip ++ fp with
    | [] => None
    | ds =>
        match digits_acc 10 0%N ds, exponent_part r2 with
        | Some m, Some e => Some (round_decimal neg m (e - Z.of_nat (List.length fp)))
        | _, _ => None
        end
    end.

(** StringToNumber: the empty (or all-white) string is [+0]; a text that is
    not a StringNumericLiteral is [NaN]. *)
Definition StringToNumber (s : jsstring) : number :=
  match trim s with
  | [] => S754_zero false
  | t =>
      match NonDecimalIntegerLiteral t with
      | Some n => number_of_N n
      | None =>
          let '(neg, r) := split_sign t in
          match StrUnsignedDecimalLiteral neg r with
          | Some x => x
          | None => S754_nan
          end
      end
  end.

(** [Number(s)] on a string argument never throws. *)
Definition Number (s : jsstring) : number := StringToNumber s.

(** *** String(number) on a non-negative integer *)

Fixpoint uint_codeunits (u : Decimal.uint) : jsstring :=
  match u with
  | Decimal.Nil => []
  | Decimal.D0 u' => 48%N :: uint_codeunits u'
  | Decimal.D1 u' => 49%N :: uint_codeunits u'
  | Decimal.D2 u' => 50%N :: uint_codeunits u'
  | Decimal.D3 u' => 51%N :: uint_codeunits u'
  | Decimal.D4 u' => 52%N :: uint_codeunits u'
  | Decimal.D5 u' => 53%N :: uint_codeunits u'
  | Decimal.D6 u' => 54%N :: uint_codeunits u'
  | Decimal.D7 u' => 55%N :: uint_codeunits u'
  | Decimal.D8 u' => 56%N :: uint_codeunits u'
  | Decimal.D9 u' => 57%N :: uint_codeunits u'
  end.

(** [String(n)] for an integer number [0 <= n < 10^21]: its decimal digits
    (chain ids are such integers). *)
Definition String_of_N (n : N) : jsstring := uint_codeunits (N.to_uint n).

End JS.

Import JS.

(* ===================================================================== *)
(** ** The component                                                      *)
(* ===================================================================== *)

(** [base.id] of [viem/chains]: the chain id of Base. *)
Definition base_id : N := 8453.

Definition DEFAULT_SPENDER : jsstring := js "0xd8dA6BF26964aF9D7eEd9e03E53415D37aA96045".
Definition DEFAULT_TOKEN : jsstring := js "0x833589fCD6eDb6E08f4c7C32D4f71b54bdA02913".

(** *** The hooks of wagmi *)

(** An address of wagmi has the type [`0x${string}`]: the two characters
    [0x] followed by any text. *)
Record Address : Type := mkAddress { addr_tail : jsstring }.

Definition addr_string (a : Address) : jsstring := js "0x" ++ addr_tail a.

(** What [useAccount()] and [useChainId()] return at a render. *)
Record Wallet : Type := mkWallet {
  address : option Address;
  isConnected : bool;
  connectedChainId : N
}.

(** *** The nine [useState] cells *)

Record State : Type := mkState {
  account : jsstring;
  spender : jsstring;
  token : jsstring;
  chainId : jsstring;
  allowance : jsstring;
  periodInDays : jsstring;
  permission : option jsstring;
  error : option jsstring;
  loading : bool
}.

Definition setAccount (v : jsstring) (s : State) : State :=
  mkState v (spender s) (token s) (chainId s) (allowance s) (periodInDays s)
          (permission s) (error s) (loading s).
Definition setSpender (v : jsstring) (s : State) : State :=
  mkState (account s) v (token s) (chainId s) (allowance s) (periodInDays s)
          (permission s) (error s) (loading s).
Definition setToken (v : jsstring) (s : State) : State :=
  mkState (account s) (spender s) v (chainId s) (allowance s) (periodInDays s)
          (permission s) (error s) (loading s).
Definition setChainId (v : jsstring) (s : State) : State :=
  mkState (account s) (spender s) (token s) v (allowance s) (periodInDays s)
          (permission s) (error s) (loading s).
Definition setAllowance (v : jsstring) (s : State) : State :=
  mkState (account s) (spender s) (token s) (chainId s) v (periodInDays s)
          (permission s) (error s) (loading s).
Definition setPeriodInDays (v : jsstring) (s : State) : State :=
  mkState (account s) (spender s) (token s) (chainId s) (allowance s) v
          (permission s) (error s) (loading s).
Definition setPermission (v : option jsstring) (s : State) : State :=
  mkState (account s) (spender s) (token s) (chainId s) (allowance s) (periodInDays s)
          v (error s) (loading s).
Definition setError (v : option jsstring) (s : State) : State :=
  mkState (account s) (spender s) (token s) (chainId s) (allowance s) (periodInDays s)
          (permission s) v (loading s).
Definition setLoading (v : bool) (s : State) : State :=
  mkState (account s) (spender s) (token s) (chainId s) (allowance s) (periodInDays s)
          (permission s) (error s) v.

(** The first render: the initial values given to [useState]. *)
Definition initialState (w : Wallet) : State :=
  {| account := match address w with Some a => addr_string a | None => [] end;
     spender := DEFAULT_SPENDER;
     token := DEFAULT_TOKEN;
     chainId := String_of_N (if (connectedChainId w =? 0)%N then base_id
                             else connectedChainId w);
     allowance := js "1000000";
     periodInDays := js "30";
     permission := None;
     error := None;
     loading := false |}.

(** The body of the effect on [address]. *)
Definition effect_address (w : Wallet) (s : State) : State :=
  match address w with
  | Some a => if truthy_string (addr_string a) then setAccount (addr_string a) s else s
  | None => s
  end.

(** The body of the effect on [connectedChainId]. *)
Definition effect_chainId (w : Wallet) (s : State) : State :=
  if (connectedChainId w =? 0)%N then s
  else setChainId (String_of_N (connectedChainId w)) s.

(** The [disabled] attribute and the label of the button. *)
Definition disabled (w : Wallet) (s : State) : bool :=
  negb (isConnected w) || loading s || negb (truthy_string (account s)).

Definition label (w : Wallet) (s : State) : jsstring :=
  if loading s then js "Requesting..."
  else if isConnected w then js "Request Spend Permission"
  else js "Connect wallet to continue".

(** Whether the two result panels are rendered. *)
Definition truthy_cell (c : option jsstring) : bool :=
  match c with Some v => truthy_string v | None => false end.
Definition shows_permission (s : State) : bool := truthy_cell (permission s).
Definition shows_error (s : State) : bool := truthy_cell (error s).

(* ===================================================================== *)
(** ** The click handler                                                  *)
(* ===================================================================== *)

(** What the Base Account SDK and the engine own.  The provider is the
    object [sdk.getProvider()] returns.  A response is what the promise of
    [requestSpendPermission] resolves with: plain data, for which
    [JSON.stringify(response, null, 2)] returns its text.  The message of
    the [SyntaxError] that [BigInt] throws on a malformed string is chosen
    by the engine. *)
Class Host : Type := mkHost {
  Provider : Type;
  Response : Type;
  JSON_stringify : Response -> jsstring;
  SyntaxError_message : jsstring -> jsstring
}.

Section Handler.

Context {host : Host}.

(** [BigInt(s)] on a string: a [SyntaxError] when [s] is not an integer
    literal. *)
Definition BigInt (s : jsstring) : completion Z :=
  match StringToBigInt s with
  | Some z => Normal z
  | None => Throw (ErrorObj (SyntaxError_message s))
  end.

(** The argument of [requestSpendPermission]. *)
Record Params : Type := mkParams {
  p_account : jsstring;
  p_spender : jsstring;
  p_token : jsstring;
  p_chainId : number;
  p_allowance : Z;
  p_periodInDays : number;
  p_provider : Provider
}.

(** How the promise of [requestSpendPermission] settles. *)
Inductive settlement : Type :=
| Resolved (r : Response)
| Rejected (e : thrown).

(** The calls into the SDK that the handler makes. *)
Inductive SdkCall : Type :=
| Call_getProvider
| Call_requestSpendPermission (p : Params).

(** *** Handler code as a tree of interactions

    A handler runs on the state cells; it finishes with a completion, or asks
    the SDK for its provider (answered at once), or awaits the promise of
    [requestSpendPermission] (answered when the promise settles, on the
    state cells as they are by then). *)
Inductive result (A : Type) : Type :=
| Ret (c : completion A) (s : State)
| GetProvider (k : completion Provider -> State -> result A) (s : State)
| Await (p : Params) (k : settlement -> State -> result A) (s : State).

Definition prog (A : Type) : Type := State -> result A.

Fixpoint bind_result {A B : Type} (r : result A) (f : A -> prog B) : result B :=
  match r with
  | Ret (Normal a) s => f a s
  | Ret (Throw e) s => Ret (Throw e) s
  | GetProvider k s => GetProvider (fun x s' => bind_result (k x s') f) s
  | Await p k s => Await p (fun x s' => bind_result (k x s') f) s
  end.

Definition bind {A B : Type} (m : prog A) (f : A -> prog B) : prog B :=
  fun s => bind_result (m s) f.

Definition ret {A : Type} (a : A) : prog A := fun s => Ret (Normal a) s.

(** An expression that may throw, evaluated inside a handler. *)
Definition lift {A : Type} (c : completion A) : prog A := fun s => Ret c s.

(** A call of a [useState] setter. *)
Definition set (f : State -> State) : prog unit := fun s => Ret (Normal tt) (f s).

(** [sdk.getProvider()]. *)
Definition getProvider : prog Provider :=
  fun s => GetProvider (fun c s' => Ret c s') s.

(** [await requestSpendPermission(p)]. *)
Definition await_requestSpendPermission (p : Params) : prog Response :=
  fun s => Await p (fun o s' =>
                      match o with
                      | Resolved r => Ret (Normal r) s'
                      | Rejected e => Ret (Throw e) s'
                      end) s.

Fixpoint catch_result {A : Type} (r : result A) (h : thrown -> prog A) : result A :=
  match r with
  | Ret (Normal a) s => Ret (Normal a) s
  | Ret (Throw e) s => h e s
  | GetProvider k s => GetProvider (fun x s' => catch_result (k x s') h) s
  | Await p k s => Await p (fun x s' => catch_result (k x s') h) s
  end.

Fixpoint finally_result {A : Type} (r : result A) (f : prog unit) : result A :=
  match r with
  | Ret c s => bind_result (f s) (fun _ s' => Ret c s')
  | GetProvider k s => GetProvider (fun x s' => finally_result (k x s') f) s
  | Await p k s => Await p (fun x s' => finally_result (k x s') f) s
  end.

(** [try { body } catch (err) { handler err } finally { fin }]. *)
Definition try_catch_finally {A : Type}
    (body : prog A) (handler : thrown -> prog A) (fin : prog unit) : prog A :=
  fun s => finally_result (catch_result (body s) handler) fin.

Notation "x <- m ;; k" := (bind m (fun x => k))
  (at level 61, m at next level, right associativity).
Notation "m ;; k" := (bind m (fun _ => k))
  (at level 61, right associativity).

(** *** handleRequest *)

(** Lines 54 to 56: the three parses, in source order. *)
Definition parseFields (chainId allowance periodInDays : jsstring)
  : completion (number * Z * number) :=
  let parsedChainId := or_number (Number chainId) (number_of_N base_id) in
  match (if truthy_string allowance then BigInt allowance else Normal 0%Z) with
  | Throw e => Throw e
  | Normal parsedAllowance =>
      let parsedPeriod := or_number (Number periodInDays) (number_of_Z 0) in
      Normal (parsedChainId, parsedAllowance, parsedPeriod)
  end.

(** The [try] block.  [r] holds the values of the render that created the
    callback: [useCallback] closes over the form fields. *)
Definition try_block (r : State) : prog unit :=
  parsed <- lift (parseFields (chainId r) (allowance r) (periodInDays r)) ;;
  let '(parsedChainId, parsedAllowance, parsedPeriod) := parsed in
  provider <- getProvider ;;
  permissionResponse <- await_requestSpendPermission
    {| p_account := account r;
       p_spender := spender r;
       p_token := token r;
       p_chainId := parsedChainId;
       p_allowance := parsedAllowance;
       p_periodInDays := parsedPeriod;
       p_provider := provider |} ;;
  set (setPermission (Some (JSON_stringify permissionResponse))).

(** [err instanceof Error ? err.message : "Failed to request spend permission"]. *)
Definition catch_message (err : thrown) : jsstring :=
  match err with
  | ErrorObj message => message
  | NonError => js "Failed to request spend permission"
  end.

Definition catch_block (err : thrown) : prog unit :=
  let message := catch_message err in
  set (setError (Some message)).

Definition finally_block : prog unit := set (setLoading false).

Definition handleRequest (r : State) : prog unit :=
  set (setLoading true) ;;
  set (setError None) ;;
  set (setPermission None) ;;
  try_catch_finally (try_block r) catch_block finally_block.

(** *** Running a handler *)

(** One invocation from the click to its completion, nothing else happening
    in between: [prov] is what [sdk.getProvider()] does and [sdk] how the
    promise of each request settles.  The result is the completion of the
    handler, the final cells and the SDK calls made, in order. *)
Record finished (A : Type) : Type := mkFinished {
  outcome : completion A;
  final : State;
  made : list SdkCall
}.

Fixpoint run {A : Type} (prov : completion Provider) (sdk : Params -> settlement)
    (r : result A) : finished A :=
  match r with
  | Ret c s => {| outcome := c; final := s; made := [] |}
  | GetProvider k s =>
      let x := run prov sdk (k prov s) in
      {| outcome := outcome x; final := final x; made := Call_getProvider :: made x |}
  | Await p k s =>
      let x := run prov sdk (k (sdk p) s) in
      {| outcome := outcome x; final := final x;
         made := Call_requestSpendPermission p :: made x |}
  end.

(** The part of a handler that runs at once, up to its first [await]. *)
Inductive paused (A : Type) : Type :=
| Finished (c : completion A) (s : State)
| Suspended (p : Params) (k : settlement -> State -> result A) (s : State).

Fixpoint advance {A : Type} (prov : completion Provider) (r : result A)
  : list SdkCall * paused A :=
  match r with
  | Ret c s => ([], Finished c s)
  | GetProvider k s =>
      let '(l, x) := advance prov (k prov s) in (Call_getProvider :: l, x)
  | Await p k s => ([Call_requestSpendPermission p], Suspended p k s)
  end.

Definition is_request (c : SdkCall) : bool :=
  match c with Call_requestSpendPermission _ => true | Call_getProvider => false end.

(** How many times [requestSpendPermission] was called. *)
Definition requests (l : list SdkCall) : nat := List.length (filter is_request l).


(* ===================================================================== *)
(** ** The rendered component as an event system                          *)
(* ===================================================================== *)

(** The component between two events: the hooks of the last render, the
    state cells, the requests whose promise has not settled yet (each with
    the rest of its handler), and the SDK calls made so far. *)
Record Component : Type := mkComponent {
  wallet : Wallet;
  cells : State;
  pending : list (Params * (settlement -> State -> result unit));
  calls : list SdkCall
}.

Inductive Event : Type :=
| EditAccount (v : jsstring)
| EditSpender (v : jsstring)
| EditToken (v : jsstring)
| EditChainId (v : jsstring)
| EditPeriodInDays (v : jsstring)
| EditAllowance (v : jsstring)
| WalletChange (w : Wallet)
| Click (prov : completion Provider)
| Settle (i : nat) (o : settlement) (prov : completion Provider).

Definition address_eqb (a b : option Address) : bool :=
  match a, b with
  | Some x, Some y => jsstring_eqb (addr_tail x) (addr_tail y)
  | None, None => true
  | _, _ => false
  end.

(** After a render with new hook values, the effects whose dependency
    changed run, in source order. *)
Definition run_effects (old new : Wallet) (s : State) : State :=
  let s1 := if address_eqb (address old) (address new) then s
            else effect_address new s in
  if (connectedChainId old =? connectedChainId new)%N then s1
  else effect_chainId new s1.

(** Mounting: the first render, after which both effects run. *)
Definition mount (w : Wallet) : Component :=
  {| wallet := w;
     cells := effect_chainId w (effect_address w (initialState w));
     pending := [];
     calls := [] |}.

Definition with_cells (c : Component) (s : State) : Component :=
  {| wallet := wallet c; cells := s; pending := pending c; calls := calls c |}.

Definition remove_nth {A : Type} (i : nat) (l : list A) : list A :=
  firstn i l ++ skipn (S i) l.

(** A handler segment has run: record its calls, and either its end or the
    request it now awaits. *)
Definition after_segment (c : Component)
    (rest : list (Params * (settlement -> State -> result unit)))
    (seg : list SdkCall * paused unit) : Component :=
  match seg with
  | (l, Finished _ s) =>
      {| wallet := wallet c; cells := s; pending := rest; calls := calls c ++ l |}
  | (l, Suspended p k s) =>
      {| wallet := wallet c; cells := s; pending := rest ++ [(p, k)];
         calls := calls c ++ l |}
  end.

(** One event.  A click reaches [handleRequest] only when the button is not
    disabled; a settlement needs a pending request. *)
Definition step (c : Component) (e : Event) : option Component :=
  match e with
  | EditAccount v => Some (with_cells c (setAccount v (cells c)))
  | EditSpender v => Some (with_cells c (setSpender v (cells c)))
  | EditToken v => Some (with_cells c (setToken v (cells c)))
  | EditChainId v => Some (with_cells c (setChainId v (cells c)))
  | EditPeriodInDays v => Some (with_cells c (setPeriodInDays v (cells c)))
  | EditAllowance v => Some (with_cells c (setAllowance v (cells c)))
  | WalletChange w =>
      Some {| wallet := w; cells := run_effects (wallet c) w (cells c);
              pending := pending c; calls := calls c |}
  | Click prov =>
      if disabled (wallet c) (cells c) then None
      else Some (after_segment c (pending c)
                   (advance prov (handleRequest (cells c) (cells c))))
  | Settle i o prov =>
      match nth_error (pending c) i with
      | Some (_, k) =>
          Some (after_segment c (remove_nth i (pending c))
                  (advance prov (k o (cells c))))
      | None => None
      end
  end.

Fixpoint steps (c : Component) (es : list Event) : option Component :=
  match es with
  | [] => Some c
  | e :: es' =>
      match step c e with
      | Some c' => steps c' es'
      | None => None
      end
  end.

Inductive reachable : Component -> Prop :=
| reachable_mount (w : Wallet) : reachable (mount w)
| reachable_step (c c' : Component) (e : Event) :
    reachable c -> step c e = Some c' -> reachable c'.

(** *** Reference points for the properties *)

(** The three setter calls that open [handleRequest]. *)
Definition cleared (s : State) : State :=
  setPermission None (setError None (setLoading true s)).

(** The cells once the [try] block has completed normally, and once the
    [catch] block has run, the [finally] block included. *)
Definition resolved_cells (resp : Response) (s : State) : State :=
  setLoading false (setPermission (Some (JSON_stringify resp)) s).
Definition failed_cells (e : thrown) (s : State) : State :=
  setLoading false (setError (Some (catch_message e)) s).

Definition settled_cells (o : settlement) (s : State) : State :=
  match o with
  | Resolved resp => resolved_cells resp s
  | Rejected e => failed_cells e s
  end.

(** The argument record that [handleRequest] builds. *)
Definition params_of (r : State) (parsed : number * Z * number) (pv : Provider)
  : Params :=
  let '(pc, pa, pp) := parsed in
  {| p_account := account r; p_spender := spender r; p_token := token r;
     p_chainId := pc; p_allowance := pa; p_periodInDays := pp;
     p_provider := pv |}.

(** A continuation that finishes the handler as [handleRequest] does after
    its [await]. *)
Definition resumes (k : settlement -> State -> result unit) : Prop :=
  forall o s, k o s = Ret (Normal tt) (settled_cells o s).

(** Either nothing is in flight and [loading] is off, or exactly one request
    is, [loading] is on, both panels are cleared, and the rest of its handler
    is the tail of [handleRequest]. *)
Definition Inv (c : Component) : Prop :=
  (pending c = [] /\ loading (cells c) = false /\
   (permission (cells c) = None \/ error (cells c) = None))
  \/
  (exists p k, pending c = [(p, k)] /\ resumes k /\ loading (cells c) = true /\
               permission (cells c) = None /\ error (cells c) = None).

End Handler.

(* ===================================================================== *)
(** ** A concrete host                                                    *)
(* ===================================================================== *)

(** Plain data and its text under [JSON.stringify(value, null, 2)]. *)
Module JSON.

(** [JInt z] is an integer number (below [10^21] in size, so that it prints
    as plain digits); the properties of an object are in enumeration
    order. *)
Inductive json : Type :=
| JNull
| JBool (b : bool)
| JInt (z : Z)
| JString (s : jsstring)
| JArray (l : list json)
| JObject (l : list (jsstring * json)).

Definition hex_digit (n : N) : codeunit :=
  (if n <? 10 then 48 + n else 87 + n)%N.

(** UnicodeEscape: backslash, [u] and four lower-case hexadecimal digits. *)
Definition UnicodeEscape (c : codeunit) : jsstring :=
  [92; 117; hex_digit (c / 4096 mod 16); hex_digit (c / 256 mod 16);
   hex_digit (c / 16 mod 16); hex_digit (c mod 16)]%N.

Definition is_lead (c : codeunit) : bool := ((55296 <=? c) && (c <=? 56319))%N.
Definition is_trail (c : codeunit) : bool := ((56320 <=? c) && (c <=? 57343))%N.

(** The characters of a quoted string: the short escapes, [\uXXXX] for the
    other control characters and for lone surrogates, the rest as it is. *)
Fixpoint quote_chars (s : jsstring) : jsstring :=
  match s with
  | [] => []
  | c :: s' =>
      if (c =? 8)%N then [92; 98]%N ++ quote_chars s'
      else if (c =? 9)%N then [92; 116]%N ++ quote_chars s'
      else if (c =? 10)%N then [92; 110]%N ++ quote_chars s'
      else if (c =? 12)%N then [92; 102]%N ++ quote_chars s'
      else if (c =? 13)%N then [92; 114]%N ++ quote_chars s'
      else if (c =? 34)%N then [92; 34]%N ++ quote_chars s'
      else if (c =? 92)%N then [92; 92]%N ++ quote_chars s'
      else if (c <? 32)%N then UnicodeEscape c ++ quote_chars s'
      else if is_lead c then
        match s' with
        | d :: s'' =>
            if is_trail d then c :: d :: quote_chars s''
            else UnicodeEscape c ++ quote_chars s'
        | [] => UnicodeEscape c
        end
      else if is_trail c then UnicodeEscape c ++ quote_chars s'
      else c :: quote_chars s'
  end.

Definition QuoteJSONString (s : jsstring) : jsstring :=
  [34%N] ++ quote_chars s ++ [34%N].

Definition Z_codeunits (z : Z) : jsstring :=
  match z with
  | Zneg p => 45%N :: String_of_N (Npos p)
  | _ => String_of_N (Z.to_N z)
  end.

Fixpoint join (sep : jsstring) (l : list jsstring) : jsstring :=
  match l with
  | [] => []
  | [x] => x
  | x :: l' => x ++ sep ++ join sep l'
  end.

(** The wrapper of a non-empty array or object: each member on a line of
    its own at the inner indent, the closing bracket at the outer one. *)
Definition wrap (open close : codeunit) (indent indent' : jsstring)
    (members : list jsstring) : jsstring :=
  match members with
  | [] => [open; close]
  | _ :: _ =>
      [open; 10%N] ++ indent' ++ join ([44; 10]%N ++ indent') members
        ++ [10%N] ++ indent ++ [close]
  end.

(** The gap of [JSON.stringify(value, null, 2)]: two spaces. *)
Definition gap : jsstring := [32; 32]%N.

(** SerializeJSONProperty at the given indent, with that gap: a member of an
    object is its quoted key, a colon, a space and its value. *)
Fixpoint serialize (indent : jsstring) (v : json) {struct v} : jsstring :=
  match v with
  | JNull => js "null"
  | JBool true => js "true"
  | JBool false => js "false"
  | JInt z => Z_codeunits z
  | JString s => QuoteJSONString s
  | JArray l =>
      wrap 91%N 93%N indent (indent ++ gap)
           (map (serialize (indent ++ gap)) l)
  | JObject l =>
      wrap 123%N 125%N indent (indent ++ gap)
           (map (fun kv => QuoteJSONString (fst kv) ++ [58; 32]%N
                             ++ serialize (indent ++ gap) (snd kv)) l)
  end.

(** [JSON.stringify(v, null, 2)]. *)
Definition stringify2 (v : json) : jsstring := serialize [] v.

End JSON.

(** A host for running the component on concrete inputs: the provider is
    opaque, responses are plain data, and a malformed [BigInt] text is
    reported the way V8 words it. *)
Module Demo.

Definition host : Host :=
  {| Provider := unit;
     Response := JSON.json;
     JSON_stringify := JSON.stringify2;
     SyntaxError_message := fun s => js "Cannot convert " ++ s ++ js " to a BigInt" |}.

Definition owner : Address := mkAddress (js "1111111111111111111111111111111111111111").

Definition disconnected : Wallet :=
  {| address := None; isConnected := false; connectedChainId := base_id |}.

Definition connected : Wallet :=
  {| address := Some owner; isConnected := true; connectedChainId := base_id |}.

(** A small response of the shape the SDK returns. *)
Definition response : JSON.json :=
  JSON.JObject
    [ (js "signature", JSON.JString (js "0xabcd"));
      (js "chainId", JSON.JInt 8453);
      (js "permission",
        JSON.JObject [ (js "allowance", JSON.JString (js "1000000"));
                       (js "period", JSON.JInt 2592000) ]) ].

Definition resolves : @Params host -> @settlement host := fun _ => @Resolved host response.
Definition rejects (e : thrown) : @Params host -> @settlement host := fun _ => @Rejected host e.

(** [sdk.getProvider()] returns the provider. *)
Definition provider_ok : completion (@Provider host) := Normal tt.

(** [sdk.getProvider()] throws. *)
Definition provider_fails : completion (@Provider host) :=
  Throw (ErrorObj (js "provider unavailable")).

(** The cells of a freshly mounted component with the wallet connected. *)
Definition ready : State := cells (mount (host := host) connected).

(** The request a click on the fresh form makes. *)
Definition request : @Params host :=
  @mkParams host (addr_string owner) DEFAULT_SPENDER DEFAULT_TOKEN
            (number_of_N 8453) 1000000 (number_of_N 30) tt.

Definition user_rejected : thrown := ErrorObj (js "User rejected the request").

(** The component after a list of events, mounted with no wallet. *)
Definition after (es : list (@Event host)) : @Component host :=
  match steps (mount disconnected) es with
  | Some c => c
  | None => mount disconnected
  end.

(** The wallet connects and the button is clicked: a request is in flight. *)
Definition clicked : list (@Event host) :=
  [WalletChange connected; Click provider_ok].

(** ... and the wallet disconnects before the promise settles. *)
Definition disconnected_in_flight : list (@Event host) :=
  clicked ++ [WalletChange disconnected].

(** ... or the promise resolves. *)
Definition granted : list (@Event host) :=
  clicked ++ [Settle 0 (@Resolved host response) provider_ok].

(** ... or the user rejects the request in the wallet. *)
Definition refused : list (@Event host) :=
  clicked ++ [Settle 0 (@Rejected host user_rejected) provider_ok].

(** The wallet connects and the user clears the account field. *)
Definition account_cleared : list (@Event host) :=
  [WalletChange connected; EditAccount []].

(** The user types an account before any wallet is connected. *)
Definition typed_account : list (@Event host) :=
  [EditAccount (js "0xabc")].

(** The wallet connects, the user types an allowance of 1.5 and clicks. *)
Definition fraction_clicked : list (@Event host) :=
  [WalletChange connected; EditAllowance (js "1.5"); Click provider_ok].

(** The wallet connects and the button is clicked, but the SDK has no
    provider to give. *)
Definition clicked_without_provider : list (@Event host) :=
  [WalletChange connected; Click provider_fails].

End Demo.

(* ===================================================================== *)
(** ** Properties                                                         *)
(* ===================================================================== *)

(** *** The numeric built-ins agree on decimal numerals *)

Module JSFacts.

Lemma uint_codeunits_decimal (u : Decimal.uint) : all_decimal (uint_codeunits u).
Proof.
  induction u; cbn [uint_codeunits]; constructor; auto.
Qed.

Lemma decimal_range (c : codeunit) : is_decimal c = true -> (48 <= c <= 57)%N.
Proof.
  unfold is_decimal. rewrite andb_true_iff, !N.leb_le. tauto.
Qed.

Lemma decimal_not_white (c : codeunit) :
  is_decimal c = true -> is_StrWhiteSpaceChar c = false.
Proof.
  intros H. apply decimal_range in H. unfold is_StrWhiteSpaceChar.
  repeat match goal with
         | |- context [(?a <=? ?b)%N] => destruct (N.leb_spec a b); try lia
         | |- context [(?a =? ?b)%N] => destruct (N.eqb_spec a b); try lia
         end; try reflexivity.
Qed.

Lemma decimal_digit_value (c : codeunit) :
  is_decimal c = true -> digit_value 10 c = Some (c - 48)%N.
Proof.
  intros H. unfold digit_value. fold (is_decimal c). rewrite H.
  apply decimal_range in H.
  destruct (N.ltb_spec (c - 48) 10); [reflexivity | lia].
Qed.

Lemma drop_ws_decimal (s : jsstring) : all_decimal s -> drop_ws s = s.
Proof.
  intros [ | c s' Hc _]; [reflexivity | ].
  cbn. rewrite (decimal_not_white _ Hc). reflexivity.
Qed.

Lemma trim_decimal (s : jsstring) : all_decimal s -> trim s = s.
Proof.
  intros H. unfold trim. rewrite (drop_ws_decimal H).
  rewrite drop_ws_decimal by (apply Forall_rev, H).
  apply rev_involutive.
Qed.

Lemma NonDecimalIntegerLiteral_decimal (s : jsstring) :
  all_decimal s -> NonDecimalIntegerLiteral s = None.
Proof.
  intros H. destruct s as [ | c [ | p ds]]; try reflexivity.
  - cbn. destruct c as [ | q]; [reflexivity | ].
    repeat (destruct q as [q | q | ]; try reflexivity).
  - inversion H as [ | ? ? _ H2]; subst. inversion H2 as [ | ? ? Hp _]; subst.
    apply decimal_range in Hp.
    assert (E : forall n, (57 < n)%N -> (p =? n)%N = false)
      by (intros n Hn; apply N.eqb_neq; lia).
    unfold NonDecimalIntegerLiteral.
    rewrite !E by lia. cbn.
    destruct c as [ | q]; [reflexivity | ].
    repeat (destruct q as [q | q | ]; try reflexivity).
Qed.

Lemma split_sign_decimal (s : jsstring) : all_decimal s -> split_sign s = (false, s).
Proof.
  intros [ | c s' Hc _]; [reflexivity | ].
  apply decimal_range in Hc. unfold split_sign.
  destruct c as [ | q]; [reflexivity | ].
  repeat (destruct q as [q | q | ]; try reflexivity); lia.
Qed.

Lemma span_digits_decimal (s : jsstring) : all_decimal s -> span_digits s = (s, []).
Proof.
  induction 1 as [ | c s' Hc _ IH]; [reflexivity | ].
  cbn [span_digits]. rewrite (decimal_digit_value _ Hc), IH. reflexivity.
Qed.

Lemma digits_acc_uint_pos (u : Decimal.uint) (a : positive) :
  digits_acc 10 (Npos a) (uint_codeunits u) = Some (Npos (Pos.of_uint_acc u a)).
Proof.
  revert a. induction u; intros a; cbn [uint_codeunits digits_acc Pos.of_uint_acc];
    [reflexivity | .. ];
    match goal with
    | |- context [digit_value 10 ?c] =>
        change (digit_value 10 c) with (Some (c - 48)%N)
    end; cbv beta iota;
    match goal with
    | |- digits_acc 10 ?x _ = Some (Npos (Pos.of_uint_acc _ ?y)) =>
        replace x with (Npos y) by lia; apply IHu
    end.
Qed.

Lemma digits_acc_uint (u : Decimal.uint) :
  digits_acc 10 0 (uint_codeunits u) = Some (Pos.of_uint u).
Proof.
  induction u; cbn [uint_codeunits digits_acc Pos.of_uint];
    [reflexivity | exact IHu | .. ];
    match goal with
    | |- context [digit_value 10 ?c] =>
        change (digit_value 10 c) with (Some (c - 48)%N)
    end; cbv beta iota; apply digits_acc_uint_pos.
Qed.

Lemma String_of_N_decimal (n : N) : all_decimal (String_of_N n).
Proof. apply uint_codeunits_decimal. Qed.

Lemma String_of_N_nonempty (n : N) : String_of_N n <> [].
Proof.
  unfold String_of_N. destruct (N.to_uint n) eqn:E; cbn; try discriminate.
  destruct n as [ | p]; [discriminate | ].
  exfalso. exact (DecimalPos.Unsigned.to_uint_nonnil p E).
Qed.

Lemma digits_String_of_N (n : N) : digits 10 (String_of_N n) = Some n.
Proof.
  pose proof (String_of_N_nonempty n) as H.
  unfold digits. destruct (String_of_N n) eqn:E; [congruence | ].
  rewrite <- E. unfold String_of_N. rewrite digits_acc_uint.
  f_equal. apply DecimalN.Unsigned.of_to.
Qed.

(** A run of decimal digits is an integer literal, and a numeric one. *)
Lemma StringToBigInt_decimal (s : jsstring) (n : N) :
  all_decimal s -> digits 10 s = Some n -> StringToBigInt s = Some (Z.of_N n).
Proof.
  intros H Hd. unfold StringToBigInt. rewrite (trim_decimal H).
  destruct s as [ | c s']; [discriminate | ].
  rewrite (NonDecimalIntegerLiteral_decimal H), (split_sign_decimal H), Hd.
  reflexivity.
Qed.

Lemma Number_decimal (s : jsstring) (n : N) :
  all_decimal s -> digits 10 s = Some n -> Number s = number_of_N n.
Proof.
  intros H Hd. unfold Number, StringToNumber. rewrite (trim_decimal H).
  destruct s as [ | c s']; [discriminate | ].
  rewrite (NonDecimalIntegerLiteral_decimal H), (split_sign_decimal H).
  unfold StrUnsignedDecimalLiteral.
  assert (Hi : jsstring_eqb (c :: s') (js "Infinity") = false).
  { inversion H as [ | ? ? Hc _]; subst. apply decimal_range in Hc. cbn.
    destruct (N.eqb_spec c 73); [lia | reflexivity]. }
  rewrite Hi, (span_digits_decimal H), app_nil_r.
  unfold digits in Hd. rewrite Hd.
  cbn [exponent_part List.length Z.of_nat Z.sub].
  unfold round_decimal, number_of_N, number_of_Z.
  destruct n as [ | p]; [reflexivity | ].
  cbn [Z.opp Z.of_N]. rewrite Z.mul_1_r. reflexivity.
Qed.

(** [BigInt(String(n))] is [n]. *)
Theorem StringToBigInt_String_of_N (n : N) :
  StringToBigInt (String_of_N n) = Some (Z.of_N n).
Proof.
  apply StringToBigInt_decimal;
    [apply String_of_N_decimal | apply digits_String_of_N].
Qed.

(** [Number(String(n))] is [n], rounded to a binary64 value. *)
Theorem Number_String_of_N (n : N) : Number (String_of_N n) = number_of_N n.
Proof.
  apply Number_decimal; [apply String_of_N_decimal | apply digits_String_of_N].
Qed.

End JSFacts.

Section Properties.

Context {host : Host}.

(** *** One invocation, step by step *)

Lemma run_handleRequest (prov : completion Provider) (sdk : Params -> settlement)
    (r s : State) :
  run prov sdk (handleRequest r s) =
    match parseFields (chainId r) (allowance r) (periodInDays r) with
    | Throw e => mkFinished (Normal tt) (failed_cells e (cleared s)) []
    | Normal parsed =>
        match prov with
        | Throw e =>
            mkFinished (Normal tt) (failed_cells e (cleared s)) [Call_getProvider]
        | Normal pv =>
            mkFinished (Normal tt)
              (settled_cells (sdk (params_of r parsed pv)) (cleared s))
              [Call_getProvider; Call_requestSpendPermission (params_of r parsed pv)]
        end
    end.
Proof.
  unfold handleRequest, try_catch_finally, try_block, bind, lift, set.
  cbn [bind_result].
  destruct (parseFields (chainId r) (allowance r) (periodInDays r))
    as [[[pc pa] pp] | e]; cbn; [ | reflexivity ].
  destruct prov as [pv | e]; cbn; [ | reflexivity ].
  destruct (sdk _) as [resp | e]; reflexivity.
Qed.

(** What leaves the [try] block, by case. *)
Lemma run_try_block (prov : completion Provider) (sdk : Params -> settlement)
    (r s : State) :
  outcome (run prov sdk (try_block r s)) =
    match parseFields (chainId r) (allowance r) (periodInDays r) with
    | Throw e => Throw e
    | Normal parsed =>
        match prov with
        | Throw e => Throw e
        | Normal pv =>
            match sdk (params_of r parsed pv) with
            | Resolved _ => Normal tt
            | Rejected e => Throw e
            end
        end
    end.
Proof.
  unfold try_block, bind, lift, set. cbn [bind_result].
  destruct (parseFields (chainId r) (allowance r) (periodInDays r))
    as [[[pc pa] pp] | e]; cbn; [ | reflexivity ].
  destruct prov as [pv | e]; cbn; [ | reflexivity ].
  destruct (sdk _) as [resp | e]; reflexivity.
Qed.

Lemma advance_handleRequest (prov : completion Provider) (r s : State) :
  match parseFields (chainId r) (allowance r) (periodInDays r) with
  | Throw e => advance prov (handleRequest r s)
               = ([], Finished (Normal tt) (failed_cells e (cleared s)))
  | Normal parsed =>
      match prov with
      | Throw e => advance prov (handleRequest r s)
                   = ([Call_getProvider],
                      Finished (Normal tt) (failed_cells e (cleared s)))
      | Normal pv =>
          exists k, resumes k /\
            advance prov (handleRequest r s)
            = ([Call_getProvider; Call_requestSpendPermission (params_of r parsed pv)],
               Suspended (params_of r parsed pv) k (cleared s))
      end
  end.
Proof.
  unfold handleRequest, try_catch_finally, try_block, bind, lift, set.
  cbn [bind_result].
  destruct (parseFields (chainId r) (allowance r) (periodInDays r))
    as [[[pc pa] pp] | e]; cbn; [ | reflexivity ].
  destruct prov as [pv | e]; cbn; [ | reflexivity ].
  eexists; split; [ | reflexivity ].
  intros [resp | e] s'; reflexivity.
Qed.

(** *** Invariant of the event system *)

Lemma run_effects_frame (old new : Wallet) (s : State) :
  spender (run_effects old new s) = spender s /\
  token (run_effects old new s) = token s /\
  allowance (run_effects old new s) = allowance s /\
  periodInDays (run_effects old new s) = periodInDays s /\
  permission (run_effects old new s) = permission s /\
  error (run_effects old new s) = error s /\
  loading (run_effects old new s) = loading s.
Proof.
  unfold run_effects, effect_address, effect_chainId.
  destruct (address_eqb (address old) (address new));
    destruct (connectedChainId old =? connectedChainId new)%N;
    destruct (address new) as [a|];
    destruct (connectedChainId new =? 0)%N; cbn; repeat split; reflexivity.
Qed.

Lemma Inv_mount (w : Wallet) : Inv (mount w).
Proof.
  left. unfold mount, effect_chainId, effect_address; cbn.
  destruct (connectedChainId w =? 0)%N; destruct (address w); cbn; auto.
Qed.

(** A change of the cells that touches neither [loading] nor the panels. *)
Lemma Inv_with_cells (c : Component) (w : Wallet) (s : State) :
  Inv c ->
  loading s = loading (cells c) ->
  permission s = permission (cells c) ->
  error s = error (cells c) ->
  Inv {| wallet := w; cells := s; pending := pending c; calls := calls c |}.
Proof.
  intros [(Hp & Hl & Hd) | (p & k & Hp & Hk & Hl & Hpe & He)] El Ep Ee.
  - left; cbn. rewrite El, Ep, Ee. auto.
  - right; exists p, k; cbn. rewrite El, Ep, Ee. auto.
Qed.

Lemma Inv_settled (o : settlement) (s : State) :
  permission s = None -> error s = None ->
  loading (settled_cells o s) = false /\
  (permission (settled_cells o s) = None \/ error (settled_cells o s) = None).
Proof.
  intros Hp He. destruct o as [resp | e]; cbn; auto.
Qed.

Lemma Inv_step (c c' : Component) (e : Event) :
  Inv c -> step c e = Some c' -> Inv c'.
Proof.
  intros HI Hs. destruct e; unfold step in Hs.
  1-6: injection Hs as <-; apply Inv_with_cells; auto.
  - (* wallet change *)
    injection Hs as <-.
    destruct (run_effects_frame (wallet c) w (cells c))
      as (_ & _ & _ & _ & Ep & Ee & El).
    apply Inv_with_cells; auto.
  - (* click *)
    destruct (disabled (wallet c) (cells c)) eqn:Hd; [discriminate | ].
    injection Hs as <-.
    unfold disabled in Hd.
    apply orb_false_elim in Hd as [Hd _]. apply orb_false_elim in Hd as [_ Hl].
    destruct HI as [(Hp & _ & _) | (p & k & _ & _ & Hl' & _)]; [ | congruence ].
    rewrite Hp.
    pose proof (advance_handleRequest prov (cells c) (cells c)) as HA.
    destruct (parseFields _ _ _) as [parsed | err].
    + destruct prov as [pv | err].
      * destruct HA as (k & Hk & ->). right. exists (params_of (cells c) parsed pv), k.
        cbn. auto.
      * rewrite HA. left; cbn. auto.
    + rewrite HA. left; cbn. auto.
  - (* settlement *)
    destruct (nth_error (pending c) i) as [[p k] | ] eqn:Hn; [ | discriminate ].
    injection Hs as <-.
    destruct HI as [(Hp & _ & _) | (p' & k' & Hp & Hk & Hl & Hpe & He)].
    + rewrite Hp in Hn. destruct i; discriminate.
    + rewrite Hp in Hn |- *.
      destruct i as [ | i]; [ | destruct i; discriminate ].
      injection Hn as <- <-. rewrite Hk. cbn.
      left; cbn. destruct (@Inv_settled o _ Hpe He) as [H1 H2]. auto.
Qed.

Lemma reachable_Inv (c : Component) : reachable c -> Inv c.
Proof.
  induction 1 as [w | c c' e _ IH Hs].
  - apply Inv_mount.
  - eapply Inv_step; eassumption.
Qed.

Lemma steps_reachable (es : list Event) (c c' : Component) :
  reachable c -> steps c es = Some c' -> reachable c'.
Proof.
  revert c. induction es as [ | e es IH]; intros c Hc Hs; cbn in Hs.
  - injection Hs as <-. exact Hc.
  - destruct (step c e) as [c1 | ] eqn:He; [ | discriminate ].
    apply (IH c1); [ | exact Hs ]. eapply reachable_step; eassumption.
Qed.

(** *** The claims on one invocation *)

(** C1 (amended).  In every invocation of [handleRequest] in which the promise
    of the SDK resolves with a response, the handler makes two calls into the
    SDK: [sdk.getProvider()], for the provider argument, and then
    [requestSpendPermission], once.  It sets the permission cell to
    [JSON.stringify(response, null, 2)] and leaves the error cell null. *)
Theorem handleRequest_resolved
    (prov : completion Provider) (sdk : Params -> settlement) (r s : State)
    (p : Params) (resp : Response) :
  In (Call_requestSpendPermission p) (made (run prov sdk (handleRequest r s))) ->
  sdk p = Resolved resp ->
  made (run prov sdk (handleRequest r s))
    = [Call_getProvider; Call_requestSpendPermission p] /\
  requests (made (run prov sdk (handleRequest r s))) = 1%nat /\
  permission (final (run prov sdk (handleRequest r s))) = Some (JSON_stringify resp) /\
  error (final (run prov sdk (handleRequest r s))) = None.
Proof.
  rewrite run_handleRequest.
  destruct (parseFields _ _ _) as [parsed | e]; [ | intros [] ].
  destruct prov as [pv | e]; cbn [made final In].
  - intros [H | [H | []]]; [discriminate | ].
    injection H as ->. intros ->. cbn. auto.
  - intros [H | []]; discriminate.
Qed.

(** C2.  In every invocation of [handleRequest] in which the promise of the
    SDK rejects, or an exception leaves the [try] block in any other way, the
    exception is caught (the handler completes normally), the error cell is
    set to the message extracted from it ([err.message] for an instance of
    [Error], the fixed text otherwise) and the error panel shows it (unless
    it is the empty text), the permission cell stays null, and
    [requestSpendPermission] is not called again. *)
Theorem handleRequest_rejected
    (prov : completion Provider) (sdk : Params -> settlement) (r s : State)
    (err : thrown) :
  (exists p, In (Call_requestSpendPermission p)
               (made (run prov sdk (handleRequest r s))) /\
             sdk p = Rejected err)
  \/ outcome (run prov sdk (try_block r (cleared s))) = Throw err ->
  outcome (run prov sdk (handleRequest r s)) = Normal tt /\
  error (final (run prov sdk (handleRequest r s)))
    = Some (match err with
            | ErrorObj message => message
            | NonError => js "Failed to request spend permission"
            end) /\
  shows_error (final (run prov sdk (handleRequest r s)))
    = truthy_string (catch_message err) /\
  permission (final (run prov sdk (handleRequest r s))) = None /\
  (requests (made (run prov sdk (handleRequest r s))) <= 1)%nat.
Proof.
  rewrite run_handleRequest, run_try_block.
  destruct (parseFields _ _ _) as [parsed | e].
  - destruct prov as [pv | e]; cbn [made final outcome In].
    + intros [(p & [H | [H | []]] & Hs) | H]; [discriminate | | ].
      * injection H as ->. rewrite Hs. destruct err; cbn; repeat split; auto.
      * destruct (sdk _) as [resp | e]; [discriminate | ].
        injection H as ->. destruct err; cbn; repeat split; auto.
    + intros [(p & [H | []] & _) | H]; [discriminate | ].
      injection H as ->. destruct err; cbn; repeat split; auto.
  - intros [(p & [] & _) | H]. injection H as ->. destruct err; cbn; repeat split; auto.
Qed.

(** C5.  After a completed invocation of [handleRequest], from any cells, at
    most one of the permission and error cells is non-null, so at most one of
    the two panels is rendered; and the same holds in every state the
    rendered component can reach. *)
Theorem permission_or_error :
  (forall (prov : completion Provider) (sdk : Params -> settlement) (r s : State),
     (permission (final (run prov sdk (handleRequest r s))) = None \/
      error (final (run prov sdk (handleRequest r s))) = None) /\
     shows_permission (final (run prov sdk (handleRequest r s)))
       && shows_error (final (run prov sdk (handleRequest r s))) = false) /\
  (forall c : Component,
     reachable c ->
     (permission (cells c) = None \/ error (cells c) = None) /\
     shows_permission (cells c) && shows_error (cells c) = false).
Proof.
  assert (P : forall s : State,
             permission s = None \/ error s = None ->
             shows_permission s && shows_error s = false).
  { intros s [H | H]; unfold shows_permission, shows_error; rewrite H; cbn;
      [reflexivity | apply andb_false_r]. }
  split.
  - intros prov sdk r s.
    assert (H : permission (final (run prov sdk (handleRequest r s))) = None \/
                error (final (run prov sdk (handleRequest r s))) = None).
    { rewrite run_handleRequest.
      destruct (parseFields _ _ _) as [parsed | e]; [ | cbn; auto ].
      destruct prov as [pv | e]; [ | cbn; auto ].
      cbn [final]. destruct (sdk _); cbn; auto. }
    split; [exact H | apply P, H].
  - intros c Hc.
    assert (H : permission (cells c) = None \/ error (cells c) = None).
    { destruct (reachable_Inv Hc) as [(_ & _ & H) | (p & k & _ & _ & _ & H & _)]; auto. }
    split; [exact H | apply P, H].
Qed.

(** C7.  Every invocation of [handleRequest] ends with [loading] reset to
    false, whether the parses, [sdk.getProvider()] or the request succeeded or
    threw, and the handler itself never throws; in the rendered component
    [loading] is on only while a request is in flight, so the flag cannot
    stay stuck after a failed request. *)
Theorem loading_reset :
  (forall (prov : completion Provider) (sdk : Params -> settlement) (r s : State),
     loading (final (run prov sdk (handleRequest r s))) = false /\
     outcome (run prov sdk (handleRequest r s)) = Normal tt) /\
  (forall c : Component,
     reachable c -> pending c = [] -> loading (cells c) = false).
Proof.
  split.
  - intros prov sdk r s. rewrite run_handleRequest.
    destruct (parseFields _ _ _) as [parsed | e]; [ | cbn; auto ].
    destruct prov as [pv | e]; [ | cbn; auto ].
    cbn [final outcome]. destruct (sdk _); cbn; auto.
  - intros c Hc Hp.
    destruct (reachable_Inv Hc) as [(_ & H & _) | (p & k & H & _)]; [exact H | ].
    rewrite Hp in H. discriminate.
Qed.

(** C3 (amended).  For all texts of the chain id, period and allowance fields,
    the two [Number] parses never throw and fall back as written: the chain id
    to 8453 when [Number] gives [NaN] or a zero, the period to 0 likewise.
    The allowance is [0n] for the empty text and [BigInt(allowance)]
    otherwise, and that call throws: the three lines complete abruptly, with a
    [SyntaxError], exactly when the allowance is a non-empty text that is not
    an integer literal. *)
Theorem parseFields_spec (chainId allowance periodInDays : jsstring) :
  ((exists e, parseFields chainId allowance periodInDays = Throw e) <->
   allowance <> [] /\ StringToBigInt allowance = None) /\
  (forall e, parseFields chainId allowance periodInDays = Throw e ->
             e = ErrorObj (SyntaxError_message allowance)) /\
  (forall parsedChainId parsedAllowance parsedPeriod,
     parseFields chainId allowance periodInDays
       = Normal (parsedChainId, parsedAllowance, parsedPeriod) ->
     parsedChainId = match Number chainId with
                     | S754_nan | S754_zero _ => number_of_N 8453
                     | x => x
                     end /\
     parsedPeriod = match Number periodInDays with
                    | S754_nan | S754_zero _ => S754_zero false
                    | x => x
                    end /\
     (allowance = [] -> parsedAllowance = 0%Z) /\
     (allowance <> [] -> StringToBigInt allowance = Some parsedAllowance)).
Proof.
  unfold parseFields, BigInt, or_number.
  destruct allowance as [ | a l]; cbn [truthy_string].
  - split; [ | split ].
    + split; [intros [e H]; discriminate | intros [H _]; congruence].
    + intros e H; discriminate.
    + intros pc pa pp H. injection H as <- <- <-.
      repeat split; try congruence;
        [destruct (Number chainId) | destruct (Number periodInDays)]; reflexivity.
  - destruct (StringToBigInt (a :: l)) as [z | ]; (split; [ | split ]).
    + split; [intros [e H]; discriminate | intros [_ H]; discriminate].
    + intros e H; discriminate.
    + intros pc pa pp H. injection H as <- <- <-.
      repeat split; try congruence;
        [destruct (Number chainId) | destruct (Number periodInDays)]; reflexivity.
    + split; [intros _; split; congruence | intros _; eexists; reflexivity].
    + intros e H. injection H as <-. reflexivity.
    + intros pc pa pp H; discriminate.
Qed.


(** What the chain id effect writes parses back to the chain id. *)
Corollary effect_chainId_parses (w : Wallet) (s : State) :
  connectedChainId w <> 0%N ->
  Number (chainId (effect_chainId w s)) = number_of_N (connectedChainId w).
Proof.
  intros H. unfold effect_chainId.
  destruct (N.eqb_spec (connectedChainId w) 0); [contradiction | ].
  apply JSFacts.Number_String_of_N.
Qed.

(** *** The claims on the rendered component *)

(** C4.  In every reachable state of the rendered component at most one
    request is in flight; while one is, [loading] is on, the button is
    disabled, and a click does not reach [handleRequest]. *)
Theorem one_request_in_flight (c : Component) :
  reachable c ->
  (List.length (pending c) <= 1)%nat /\
  (pending c <> [] ->
   loading (cells c) = true /\
   disabled (wallet c) (cells c) = true /\
   forall prov, step c (Click prov) = None).
Proof.
  intros Hc.
  destruct (reachable_Inv Hc) as [(Hp & _) | (p & k & Hp & _ & Hl & _)];
    rewrite Hp; cbn [List.length]; split; auto.
  - intros H; congruence.
  - intros _. assert (Hd : disabled (wallet c) (cells c) = true).
    { unfold disabled. rewrite Hl. apply orb_true_iff; left. apply orb_true_r. }
    repeat split; auto. intros prov. unfold step. rewrite Hd. reflexivity.
Qed.

(** C6 (amended).  In every state in which [isConnected] is false the button
    is disabled, so a click does not reach [handleRequest]; its label reads
    "Connect wallet to continue" unless a request is loading, in which case it
    reads "Requesting...". *)
Theorem disabled_while_disconnected (c : Component) :
  isConnected (wallet c) = false ->
  disabled (wallet c) (cells c) = true /\
  label (wallet c) (cells c)
    = (if loading (cells c) then js "Requesting..."
       else js "Connect wallet to continue") /\
  forall prov, step c (Click prov) = None.
Proof.
  intros H.
  assert (Hd : disabled (wallet c) (cells c) = true)
    by (unfold disabled; rewrite H; reflexivity).
  repeat split.
  - exact Hd.
  - unfold label. rewrite H. reflexivity.
  - intros prov. unfold step. rewrite Hd. reflexivity.
Qed.

Lemma jsstring_eqb_eq (a b : jsstring) : jsstring_eqb a b = true <-> a = b.
Proof.
  revert b. induction a as [ | x a IH]; intros [ | y b]; cbn;
    try (split; [discriminate | congruence]); [tauto | ].
  rewrite andb_true_iff, N.eqb_eq, IH.
  split; [intros [-> ->]; reflexivity | intros H; injection H; auto].
Qed.

Lemma address_eqb_eq (a b : option Address) : address_eqb a b = true <-> a = b.
Proof.
  destruct a as [[x] | ], b as [[y] | ]; cbn;
    try (split; [discriminate | congruence]); [ | tauto ].
  rewrite jsstring_eqb_eq. split; [intros -> | intros H; injection H]; auto.
Qed.

(** C8.  When a render brings an address that differs from the one of the
    render before and is defined, the account cell becomes that address,
    whatever had been typed into it; when it brings a chain id that differs
    and is truthy, the chain id cell becomes its text.  A wallet change never
    touches the spender, token, allowance and period cells. *)
Theorem wallet_change_effects (c c' : Component) (w : Wallet) :
  step c (WalletChange w) = Some c' ->
  (forall a, address w = Some a -> address (wallet c) <> Some a ->
             account (cells c') = addr_string a) /\
  (connectedChainId w <> 0%N -> connectedChainId w <> connectedChainId (wallet c) ->
   chainId (cells c') = String_of_N (connectedChainId w)) /\
  spender (cells c') = spender (cells c) /\
  token (cells c') = token (cells c) /\
  allowance (cells c') = allowance (cells c) /\
  periodInDays (cells c') = periodInDays (cells c).
Proof.
  intros H. injection H as <-. cbn [cells].
  destruct (run_effects_frame (wallet c) w (cells c)) as (E1 & E2 & E3 & E4 & _).
  repeat split; auto.
  - intros a Ha Hn. unfold run_effects.
    destruct (address_eqb (address (wallet c)) (address w)) eqn:E.
    + apply address_eqb_eq in E. congruence.
    + unfold effect_address, effect_chainId. rewrite Ha. cbn.
      destruct (_ =? _)%N; [reflexivity | ]. destruct (_ =? _)%N; reflexivity.
  - intros Hz Hn. unfold run_effects.
    destruct (connectedChainId (wallet c) =? connectedChainId w)%N eqn:E.
    + apply N.eqb_eq in E. congruence.
    + unfold effect_chainId. destruct (connectedChainId w =? 0)%N eqn:Z.
      * apply N.eqb_eq in Z. congruence.
      * reflexivity.
Qed.

(** C9.  The button is disabled whenever the account cell is the empty text,
    also with the wallet connected and nothing loading: its [disabled]
    attribute is [!isConnected || loading || !account], and a click then does
    not reach [handleRequest]. *)
Theorem disabled_without_account (c : Component) :
  account (cells c) = [] ->
  disabled (wallet c) (cells c) = true /\
  forall prov, step c (Click prov) = None.
Proof.
  intros H.
  assert (Hd : disabled (wallet c) (cells c) = true)
    by (unfold disabled; rewrite H; cbn; apply orb_true_r).
  split; [exact Hd | ]. intros prov. unfold step. rewrite Hd. reflexivity.
Qed.

End Properties.

(* ===================================================================== *)
(** ** The built-ins and the component on concrete inputs                 *)
(* ===================================================================== *)

Example Number_chain_id : Number (js "8453") = number_of_N 8453.
Proof. vm_compute. reflexivity. Qed.

Example Number_empty : Number [] = S754_zero false.
Proof. reflexivity. Qed.

Example Number_not_numeric : Number (js "12abc") = S754_nan.
Proof. vm_compute. reflexivity. Qed.

Example Number_fraction : Number (js " 0.1 ") = S754_finite false 7205759403792794 (-56).
Proof. vm_compute. reflexivity. Qed.

Example Number_hex : Number (js "0x2105") = number_of_N 8453.
Proof. vm_compute. reflexivity. Qed.

Example Number_underflow : Number (js "1e-400") = S754_zero false.
Proof. vm_compute. reflexivity. Qed.

Example Number_negative_zero : Number (js "-0") = S754_zero true.
Proof. vm_compute. reflexivity. Qed.

Example StringToBigInt_units : StringToBigInt (js "1000000") = Some 1000000%Z.
Proof. vm_compute. reflexivity. Qed.

Example StringToBigInt_spaces : StringToBigInt (js " -42 ") = Some (-42)%Z.
Proof. vm_compute. reflexivity. Qed.

Example StringToBigInt_fraction : StringToBigInt (js "1.5") = None.
Proof. vm_compute. reflexivity. Qed.

Example StringToBigInt_exponent : StringToBigInt (js "1e6") = None.
Proof. vm_compute. reflexivity. Qed.

Example String_of_N_base : String_of_N base_id = js "8453".
Proof. vm_compute. reflexivity. Qed.

Example ready_cells :
  Demo.ready =
    {| account := js "0x1111111111111111111111111111111111111111";
       spender := DEFAULT_SPENDER; token := DEFAULT_TOKEN;
       chainId := js "8453"; allowance := js "1000000"; periodInDays := js "30";
       permission := None; error := None; loading := false |}.
Proof. vm_compute. reflexivity. Qed.

Example clicked_in_flight :
  List.length (pending (Demo.after Demo.clicked)) = 1%nat /\
  calls (Demo.after Demo.clicked)
    = [Call_getProvider; Call_requestSpendPermission Demo.request] /\
  loading (cells (Demo.after Demo.clicked)) = true.
Proof. repeat split; reflexivity. Qed.

Example response_text :
  JSON.stringify2 Demo.response
  = js "{" ++ [10%N] ++
    js "  " ++ [34%N] ++ js "signature" ++ [34%N] ++ js ": "
            ++ [34%N] ++ js "0xabcd" ++ [34%N] ++ js "," ++ [10%N] ++
    js "  " ++ [34%N] ++ js "chainId" ++ [34%N] ++ js ": 8453," ++ [10%N] ++
    js "  " ++ [34%N] ++ js "permission" ++ [34%N] ++ js ": {" ++ [10%N] ++
    js "    " ++ [34%N] ++ js "allowance" ++ [34%N] ++ js ": "
              ++ [34%N] ++ js "1000000" ++ [34%N] ++ js "," ++ [10%N] ++
    js "    " ++ [34%N] ++ js "period" ++ [34%N] ++ js ": 2592000" ++ [10%N] ++
    js "  }" ++ [10%N] ++
    js "}".
Proof. vm_compute. reflexivity. Qed.

Example fraction_clicked_cells :
  error (cells (Demo.after Demo.fraction_clicked))
    = Some (js "Cannot convert 1.5 to a BigInt") /\
  permission (cells (Demo.after Demo.fraction_clicked)) = None /\
  loading (cells (Demo.after Demo.fraction_clicked)) = false /\
  calls (Demo.after Demo.fraction_clicked) = [].
Proof. repeat split; reflexivity. Qed.

Example clicked_without_provider_cells :
  error (cells (Demo.after Demo.clicked_without_provider))
    = Some (js "provider unavailable") /\
  loading (cells (Demo.after Demo.clicked_without_provider)) = false /\
  calls (Demo.after Demo.clicked_without_provider) = [Call_getProvider].
Proof. repeat split; reflexivity. Qed.

Example granted_cells :
  permission (cells (Demo.after Demo.granted)) = Some (JSON.stringify2 Demo.response) /\
  error (cells (Demo.after Demo.granted)) = None /\
  loading (cells (Demo.after Demo.granted)) = false /\
  List.length (pending (Demo.after Demo.granted)) = 0%nat.
Proof. repeat split; vm_compute; reflexivity. Qed.

Lemma Demo_reachable (es : list (@Event Demo.host)) : reachable (Demo.after es).
Proof.
  unfold Demo.after.
  destruct (steps (mount Demo.disconnected) es) as [c | ] eqn:E.
  - exact (steps_reachable es (reachable_mount Demo.disconnected) E).
  - apply reachable_mount.
Qed.

(** *** C1 *)

(** The fresh form, the provider available, the promise resolving: the handler
    has called two functions of the SDK, not one. *)
Lemma handleRequest_resolved_calls_getProvider :
  In (Call_requestSpendPermission Demo.request)
     (made (run Demo.provider_ok Demo.resolves (handleRequest Demo.ready Demo.ready))) /\
  Demo.resolves Demo.request = @Resolved Demo.host Demo.response /\
  made (run Demo.provider_ok Demo.resolves (handleRequest Demo.ready Demo.ready))
    = [Call_getProvider; Call_requestSpendPermission Demo.request] /\
  ~ (exists call,
       made (run Demo.provider_ok Demo.resolves (handleRequest Demo.ready Demo.ready))
       = [call]).
Proof.
  assert (E : made (run Demo.provider_ok Demo.resolves
                        (handleRequest Demo.ready Demo.ready))
              = [Call_getProvider; Call_requestSpendPermission Demo.request])
    by reflexivity.
  rewrite E. repeat split.
  - right; left; reflexivity.
  - intros [call H]; discriminate.
Qed.

Lemma handleRequest_resolved_witness :
  made (run Demo.provider_ok Demo.resolves (handleRequest Demo.ready Demo.ready))
    = [Call_getProvider; Call_requestSpendPermission Demo.request] /\
  requests (made (run Demo.provider_ok Demo.resolves
                      (handleRequest Demo.ready Demo.ready))) = 1%nat /\
  permission (final (run Demo.provider_ok Demo.resolves
                         (handleRequest Demo.ready Demo.ready)))
    = Some (JSON.stringify2 Demo.response) /\
  error (final (run Demo.provider_ok Demo.resolves
                    (handleRequest Demo.ready Demo.ready))) = None.
Proof.
  apply (@handleRequest_resolved Demo.host Demo.provider_ok Demo.resolves
           Demo.ready Demo.ready Demo.request Demo.response).
  - right; left; reflexivity.
  - reflexivity.
Defined.

(** *** C2 *)

Lemma handleRequest_rejected_witness :
  outcome (run Demo.provider_ok (Demo.rejects Demo.user_rejected)
               (handleRequest Demo.ready Demo.ready)) = Normal tt /\
  error (final (run Demo.provider_ok (Demo.rejects Demo.user_rejected)
                    (handleRequest Demo.ready Demo.ready)))
    = Some (js "User rejected the request") /\
  shows_error (final (run Demo.provider_ok (Demo.rejects Demo.user_rejected)
                          (handleRequest Demo.ready Demo.ready)))
    = truthy_string (catch_message Demo.user_rejected) /\
  permission (final (run Demo.provider_ok (Demo.rejects Demo.user_rejected)
                         (handleRequest Demo.ready Demo.ready))) = None /\
  (requests (made (run Demo.provider_ok (Demo.rejects Demo.user_rejected)
                       (handleRequest Demo.ready Demo.ready))) <= 1)%nat.
Proof.
  apply (@handleRequest_rejected Demo.host Demo.provider_ok
           (Demo.rejects Demo.user_rejected) Demo.ready Demo.ready
           Demo.user_rejected).
  left. exists Demo.request. split.
  - right; left; reflexivity.
  - reflexivity.
Defined.

(** *** C3 *)

(** An allowance of "1.5": the three parsing lines throw. *)
Lemma parseFields_throws_on_fraction :
  @parseFields Demo.host (js "8453") (js "1.5") (js "30")
  = Throw (ErrorObj (js "Cannot convert 1.5 to a BigInt")).
Proof. vm_compute. reflexivity. Qed.

(** An empty chain id, a period that is not a number, an allowance of one
    USDC: both fallbacks are taken and the allowance is read; and on "1.5" the
    exception is the [SyntaxError] of [BigInt]. *)
Lemma parseFields_spec_witness :
  @parseFields Demo.host [] (js "1000000") (js "abc")
    = Normal (number_of_N 8453, 1000000%Z, S754_zero false) /\
  StringToBigInt (js "1000000") = Some 1000000%Z /\
  (forall e, @parseFields Demo.host (js "8453") (js "1.5") (js "30") = Throw e ->
             e = ErrorObj (js "Cannot convert 1.5 to a BigInt")).
Proof.
  assert (E : @parseFields Demo.host [] (js "1000000") (js "abc")
              = Normal (number_of_N 8453, 1000000%Z, S754_zero false))
    by (vm_compute; reflexivity).
  split; [exact E | split].
  - apply (proj2 (proj2 (@parseFields_spec Demo.host [] (js "1000000") (js "abc")))
             _ _ _ E).
    discriminate.
  - exact (proj1 (proj2 (@parseFields_spec Demo.host (js "8453") (js "1.5") (js "30")))).
Defined.

(** *** C4 *)

Lemma one_request_in_flight_witness :
  (List.length (pending (Demo.after Demo.clicked)) <= 1)%nat /\
  loading (cells (Demo.after Demo.clicked)) = true /\
  disabled (wallet (Demo.after Demo.clicked)) (cells (Demo.after Demo.clicked)) = true.
Proof.
  destruct (@one_request_in_flight Demo.host (Demo.after Demo.clicked)
              (Demo_reachable Demo.clicked)) as [H1 H2].
  split; [exact H1 | ].
  destruct H2 as (H2 & H3 & _).
  - intros E. apply (f_equal (@List.length _)) in E. vm_compute in E.
    discriminate E.
  - split; assumption.
Defined.

(** *** C5 *)

Lemma permission_or_error_witness :
  (permission (cells (Demo.after Demo.granted)) = None \/
   error (cells (Demo.after Demo.granted)) = None) /\
  shows_permission (cells (Demo.after Demo.granted))
    && shows_error (cells (Demo.after Demo.granted)) = false.
Proof.
  apply (proj2 (@permission_or_error Demo.host) (Demo.after Demo.granted)).
  apply Demo_reachable.
Defined.

(** *** C6 *)

(** The wallet disconnects while a request is in flight: [isConnected] is
    false and the label reads "Requesting...". *)
Lemma label_of_disconnected_in_flight :
  reachable (Demo.after Demo.disconnected_in_flight) /\
  isConnected (wallet (Demo.after Demo.disconnected_in_flight)) = false /\
  label (wallet (Demo.after Demo.disconnected_in_flight))
        (cells (Demo.after Demo.disconnected_in_flight)) = js "Requesting..." /\
  label (wallet (Demo.after Demo.disconnected_in_flight))
        (cells (Demo.after Demo.disconnected_in_flight))
    <> js "Connect wallet to continue".
Proof.
  split; [ | split; [ | split ] ].
  - apply Demo_reachable.
  - vm_compute. reflexivity.
  - vm_compute. reflexivity.
  - vm_compute. discriminate.
Qed.

Lemma disabled_while_disconnected_witness :
  disabled (wallet (Demo.after [])) (cells (Demo.after [])) = true /\
  label (wallet (Demo.after [])) (cells (Demo.after []))
    = (if loading (cells (Demo.after [])) then js "Requesting..."
       else js "Connect wallet to continue") /\
  forall prov, step (Demo.after []) (Click prov) = None.
Proof.
  apply (@disabled_while_disconnected Demo.host (Demo.after [])).
  reflexivity.
Defined.

(** *** C7 *)

Lemma loading_reset_witness :
  loading (cells (Demo.after Demo.refused)) = false.
Proof.
  apply (proj2 (@loading_reset Demo.host) (Demo.after Demo.refused)).
  - apply Demo_reachable.
  - reflexivity.
Defined.

(** *** C8 *)

Lemma wallet_change_effects_witness :
  account (cells (Demo.after (Demo.typed_account ++ [WalletChange Demo.connected])))
    = addr_string Demo.owner.
Proof.
  refine (proj1 (@wallet_change_effects Demo.host
                   (Demo.after Demo.typed_account)
                   (Demo.after (Demo.typed_account ++ [WalletChange Demo.connected]))
                   Demo.connected _) Demo.owner _ _).
  - reflexivity.
  - reflexivity.
  - vm_compute. discriminate.
Defined.

(** *** C9 *)

Lemma disabled_without_account_witness :
  isConnected (wallet (Demo.after Demo.account_cleared)) = true /\
  loading (cells (Demo.after Demo.account_cleared)) = false /\
  disabled (wallet (Demo.after Demo.account_cleared))
           (cells (Demo.after Demo.account_cleared)) = true.
Proof.
  split; [vm_compute; reflexivity | split; [vm_compute; reflexivity | ] ].
  apply (@disabled_without_account Demo.host (Demo.after Demo.account_cleared)).
  vm_compute. reflexivity.
Defined.

(* ===================================================================== *)
(** ** More properties of the component                                   *)
(* ===================================================================== *)

(** *** Integers below [2^53] are binary64 values *)

Lemma digits2_pos_size (p : positive) : digits2_pos p = Pos.size p.
Proof. induction p; cbn; congruence. Qed.

Lemma digits2_pos_iter_xO (p k : positive) :
  digits2_pos (Pos.iter xO p k) = (digits2_pos p + k)%positive.
Proof.
  induction k as [ | k IH] using Pos.peano_ind.
  - cbn. lia.
  - rewrite Pos.iter_succ. cbn [digits2_pos]. rewrite IH. lia.
Qed.

Lemma Zpos_iter_xO (p k : positive) :
  Zpos (Pos.iter xO p k) = (Zpos p * 2 ^ Zpos k)%Z.
Proof.
  induction k as [ | k IH] using Pos.peano_ind.
  - cbn. lia.
  - rewrite Pos.iter_succ, Pos2Z.inj_xO, IH, Pos2Z.inj_succ, Z.pow_succ_r by lia. lia.
Qed.

Lemma digits2_pos_small (p : positive) :
  (Zpos p < 2 ^ 53)%Z -> (Zpos (digits2_pos p) <= 53)%Z.
Proof.
  intros H. rewrite digits2_pos_size.
  destruct (Z.le_gt_cases (Zpos (Pos.size p)) 53) as [L | G]; [exact L | exfalso].
  pose proof (Pos.size_le p) as S.
  assert (2 ^ 54 <= 2 ^ Zpos (Pos.size p))%Z by (apply Z.pow_le_mono_r; lia).
  assert (Zpos (2 ^ Pos.size p) <= Zpos p~0)%Z by exact S.
  rewrite Pos2Z.inj_pow in H1. change (Zpos 2) with 2%Z in H1. lia.
Qed.

(** An integer below [2^53] is a binary64 value: its mantissa shifted to 53
    bits. *)
Lemma number_of_N_small (p : positive) :
  (Zpos p < 2 ^ 53)%Z ->
  exists m e, number_of_N (Npos p) = S754_finite false m e /\
              (e <= 0)%Z /\ (Zpos m = Zpos p * 2 ^ (- e))%Z.
Proof.
  intros H. pose proof (digits2_pos_small H) as Hd.
  unfold number_of_N, number_of_Z. cbn [Z.of_N binary_normalize].
  unfold binary_round, shl_align.
  assert (F : fexp prec emax (Zpos (digits2_pos p) + 0) = (Zpos (digits2_pos p) - 53)%Z).
  { unfold fexp, emin, prec, emax. lia. }
  rewrite F.
  destruct (Zpos (digits2_pos p) - 53 - 0)%Z as [ | k | k] eqn:K; try lia.
  - exists p, 0%Z. split; [ | split; [lia | cbn; lia] ].
    unfold binary_round_aux, shr_fexp.
    assert (E : (fexp prec emax (Zdigits2 (Zpos p) + 0) - 0 = 0)%Z).
    { unfold fexp, emin, prec, emax. cbn [Zdigits2]. lia. }
    rewrite E. cbn [shr shr_record_of_loc shr_m loc_of_shr_record round_nearest_even].
    rewrite E. cbn [shr shr_m]. reflexivity.
  - exists (Pos.iter xO p k), (Zpos (digits2_pos p) - 53)%Z.
    split; [ | split; [lia | rewrite Zpos_iter_xO; f_equal; f_equal; lia] ].
    unfold binary_round_aux, shr_fexp.
    assert (E : (fexp prec emax (Zdigits2 (Zpos (Pos.iter xO p k))
                                 + (Zpos (digits2_pos p) - 53))
                 - (Zpos (digits2_pos p) - 53) = 0)%Z).
    { unfold fexp, emin, prec, emax. cbn [Zdigits2]. rewrite digits2_pos_iter_xO. lia. }
    rewrite E. cbn [shr shr_record_of_loc shr_m loc_of_shr_record round_nearest_even].
    rewrite E. cbn [shr shr_m].
    destruct (Z.leb_spec (Zpos (digits2_pos p) - 53) (emax - prec)) as [L | G];
      [reflexivity | unfold emax, prec in G; lia].
Qed.

Lemma number_of_N_truthy (n : N) :
  (0 < n < 2 ^ 53)%N -> truthy_number (number_of_N n) = true.
Proof.
  intros [H0 H]. destruct n as [ | p]; [lia | ].
  assert (Hp : (Zpos p < 2 ^ 53)%Z).
  { change (Zpos p) with (Z.of_N (Npos p)). change (2 ^ 53)%Z with (Z.of_N (2 ^ 53)).
    lia. }
  destruct (number_of_N_small Hp) as (m & e & E & _). rewrite E. reflexivity.
Qed.

(** *** The handler and the rendered component *)

Section MoreProperties.

Context {host : Host}.

Lemma parseFields_Normal (c a d : jsstring) (pc : number) (pa : Z) (pp : number) :
  parseFields c a d = Normal (pc, pa, pp) ->
  pc = or_number (Number c) (number_of_N base_id) /\
  pp = or_number (Number d) (number_of_Z 0) /\
  (a = [] -> pa = 0%Z) /\
  (a <> [] -> StringToBigInt a = Some pa).
Proof.
  unfold parseFields, BigInt. destruct a as [ | x a']; cbn [truthy_string].
  - intros H. injection H as <- <- <-. repeat split; congruence.
  - destruct (StringToBigInt (x :: a')) as [z | ]; [ | discriminate ].
    intros H. injection H as <- <- <-. repeat split; congruence.
Qed.

(** X1.  [handleRequest] never changes the six form fields: whatever the
    parses, the provider and the promise do, the account, spender, token,
    chain id, allowance and period cells end as they started. *)
Theorem handleRequest_keeps_form
    (prov : completion Provider) (sdk : Params -> settlement) (r s : State) :
  account (final (run prov sdk (handleRequest r s))) = account s /\
  spender (final (run prov sdk (handleRequest r s))) = spender s /\
  token (final (run prov sdk (handleRequest r s))) = token s /\
  chainId (final (run prov sdk (handleRequest r s))) = chainId s /\
  allowance (final (run prov sdk (handleRequest r s))) = allowance s /\
  periodInDays (final (run prov sdk (handleRequest r s))) = periodInDays s.
Proof.
  rewrite run_handleRequest.
  destruct (parseFields _ _ _) as [parsed | e]; [ | cbn; auto 10 ].
  destruct prov as [pv | e]; [ | cbn; auto 10 ].
  cbn [final]. destruct (sdk _); cbn; auto 10.
Qed.

(** X2.  In the rendered component, whatever was edited while the request was
    in flight, the settlement of its promise ends it: nothing stays pending,
    no further SDK call is made, [loading] is off, the form fields are as the
    user left them, and the panels show the response text (on resolution) or
    the extracted message (on rejection), never the other one. *)
Theorem settlement_shows_result (c : Component) (o : settlement)
    (prov : completion Provider) :
  reachable c -> pending c <> [] ->
  exists c',
    step c (Settle 0 o prov) = Some c' /\
    pending c' = [] /\ calls c' = calls c /\ loading (cells c') = false /\
    account (cells c') = account (cells c) /\
    spender (cells c') = spender (cells c) /\
    token (cells c') = token (cells c) /\
    chainId (cells c') = chainId (cells c) /\
    allowance (cells c') = allowance (cells c) /\
    periodInDays (cells c') = periodInDays (cells c) /\
    match o with
    | Resolved resp =>
        permission (cells c') = Some (JSON_stringify resp) /\ error (cells c') = None
    | Rejected err =>
        error (cells c') = Some (catch_message err) /\ permission (cells c') = None
    end.
Proof.
  intros Hc Hne.
  destruct (reachable_Inv Hc) as [(Hp & _) | (p & k & Hp & Hk & _ & Hpe & He)];
    [congruence | ].
  unfold step. rewrite Hp. cbn [nth_error]. rewrite Hk. cbn [advance after_segment].
  eexists. split; [reflexivity | ]. cbn [pending calls cells].
  rewrite app_nil_r.
  destruct o as [resp | err]; cbn; auto 20.
Qed.

(** X3.  When the allowance is a non-empty text that is not an integer
    literal, [handleRequest] makes no SDK call at all, not even
    [sdk.getProvider()]: it ends with the [SyntaxError] message in the error
    cell, the permission cell null and [loading] off. *)
Theorem malformed_allowance_makes_no_call
    (prov : completion Provider) (sdk : Params -> settlement) (r s : State) :
  allowance r <> [] -> StringToBigInt (allowance r) = None ->
  made (run prov sdk (handleRequest r s)) = [] /\
  error (final (run prov sdk (handleRequest r s)))
    = Some (SyntaxError_message (allowance r)) /\
  permission (final (run prov sdk (handleRequest r s))) = None /\
  loading (final (run prov sdk (handleRequest r s))) = false.
Proof.
  intros Hne Hb. rewrite run_handleRequest. unfold parseFields, BigInt.
  destruct (allowance r) as [ | x a]; [congruence | ].
  cbn [truthy_string]. rewrite Hb. cbn. auto.
Qed.

(** X4.  When the allowance parses but [sdk.getProvider()] throws,
    [requestSpendPermission] is never called: the only SDK call is
    [getProvider], and the handler ends with the extracted message in the
    error cell, the permission cell null and [loading] off. *)
Theorem provider_failure_makes_no_request
    (sdk : Params -> settlement) (r s : State) (err : thrown) :
  (allowance r = [] \/ StringToBigInt (allowance r) <> None) ->
  made (run (Throw err) sdk (handleRequest r s)) = [Call_getProvider] /\
  requests (made (run (Throw err) sdk (handleRequest r s))) = 0%nat /\
  error (final (run (Throw err) sdk (handleRequest r s))) = Some (catch_message err) /\
  permission (final (run (Throw err) sdk (handleRequest r s))) = None /\
  loading (final (run (Throw err) sdk (handleRequest r s))) = false.
Proof.
  intros H. rewrite run_handleRequest.
  assert (E : exists parsed,
             parseFields (chainId r) (allowance r) (periodInDays r) = Normal parsed).
  { unfold parseFields, BigInt. destruct (allowance r) as [ | x a];
      [eexists; reflexivity | ].
    cbn [truthy_string]. destruct H as [H | H]; [discriminate | ].
    destruct (StringToBigInt (x :: a)); [eexists; reflexivity | congruence]. }
  destruct E as [parsed ->]. cbn. auto.
Qed.

(** X5.  The argument of every [requestSpendPermission] call carries the form
    as it was at the click: account, spender and token verbatim (no trimming,
    no validation), the chain id and period as parsed by [Number] with their
    fallbacks, the allowance as parsed by [BigInt] (or [0n] for the empty
    text), and the provider that [sdk.getProvider()] returned. *)
Theorem request_carries_the_form
    (prov : completion Provider) (sdk : Params -> settlement) (r s : State)
    (p : Params) :
  In (Call_requestSpendPermission p) (made (run prov sdk (handleRequest r s))) ->
  p_account p = account r /\
  p_spender p = spender r /\
  p_token p = token r /\
  p_chainId p = or_number (Number (chainId r)) (number_of_N 8453) /\
  p_periodInDays p = or_number (Number (periodInDays r)) (S754_zero false) /\
  (allowance r = [] -> p_allowance p = 0%Z) /\
  (allowance r <> [] -> StringToBigInt (allowance r) = Some (p_allowance p)) /\
  prov = Normal (p_provider p).
Proof.
  rewrite run_handleRequest.
  destruct (parseFields _ _ _) as [[[pc pa] pp] | e] eqn:E; [ | intros [] ].
  destruct (parseFields_Normal _ _ _ E) as (-> & -> & H0 & H1).
  destruct prov as [pv | e]; cbn [made In].
  - intros [H | [H | []]]; [discriminate | ]. injection H as <-. cbn. auto 10.
  - intros [H | []]; discriminate.
Qed.

(** X6.  The chain id of the wallet reaches the SDK exactly: once the chain id
    effect has written [String(connectedChainId)] for a chain id between 1
    and [2^53 - 1], a request built from those cells has as [chainId] the
    binary64 value of that very integer, not the 8453 fallback. *)
Theorem chain_id_reaches_the_sdk
    (prov : completion Provider) (sdk : Params -> settlement) (w : Wallet)
    (s : State) (p : Params) :
  (0 < connectedChainId w < 2 ^ 53)%N ->
  In (Call_requestSpendPermission p)
     (made (run prov sdk (handleRequest (effect_chainId w s) (effect_chainId w s)))) ->
  p_chainId p = number_of_N (connectedChainId w) /\
  exists m e, p_chainId p = S754_finite false m e /\ (e <= 0)%Z /\
              (Zpos m = Z.of_N (connectedChainId w) * 2 ^ (- e))%Z.
Proof.
  intros Hn. rewrite run_handleRequest.
  destruct (parseFields _ _ _) as [[[pc pa] pp] | e] eqn:E; [ | intros [] ].
  destruct (parseFields_Normal _ _ _ E) as (-> & _).
  assert (Ec : Number (chainId (effect_chainId w s)) = number_of_N (connectedChainId w)).
  { unfold effect_chainId.
    destruct (N.eqb_spec (connectedChainId w) 0); [lia | ].
    apply JSFacts.Number_String_of_N. }
  rewrite Ec. unfold or_number. rewrite (number_of_N_truthy Hn).
  destruct prov as [pv | e]; cbn [made In].
  - intros [H | [H | []]]; [discriminate | ]. injection H as <-. cbn [p_chainId params_of].
    split; [reflexivity | ].
    destruct (connectedChainId w) as [ | q] eqn:Q; [lia | ].
    assert (Hq : (Zpos q < 2 ^ 53)%Z).
    { change (Zpos q) with (Z.of_N (Npos q)).
      change (2 ^ 53)%Z with (Z.of_N (2 ^ 53)). lia. }
    destruct (number_of_N_small Hq) as (m & e & E1 & E2 & E3).
    exists m, e. auto.
  - intros [H | []]; discriminate.
Qed.

(** X7.  The form works as mounted: with a wallet connected at mount (an
    address, any chain id below [2^53]), a click with the provider available is
    accepted, the default allowance and period parse, and exactly one request
    goes out, for the connected address, the default spender and token, the
    wallet's chain id (or 8453 when it is 0), 1000000 units and 30 days. *)
Theorem fresh_form_reaches_the_sdk (w : Wallet) (a : Address) (pv : Provider) :
  address w = Some a -> isConnected w = true ->
  (connectedChainId w < 2 ^ 53)%N ->
  exists c',
    step (mount w) (Click (Normal pv)) = Some c' /\
    List.length (pending c') = 1%nat /\
    loading (cells c') = true /\
    calls c' =
      [Call_getProvider;
       Call_requestSpendPermission
         {| p_account := addr_string a;
            p_spender := DEFAULT_SPENDER;
            p_token := DEFAULT_TOKEN;
            p_chainId := number_of_N (if (connectedChainId w =? 0)%N then 8453
                                      else connectedChainId w);
            p_allowance := 1000000;
            p_periodInDays := number_of_N 30;
            p_provider := pv |}].
Proof.
  intros Ha Hc Hn.
  set (id := if (connectedChainId w =? 0)%N then 8453%N else connectedChainId w).
  assert (Hcells : cells (mount w)
                   = mkState (addr_string a) DEFAULT_SPENDER DEFAULT_TOKEN
                             (String_of_N id) (js "1000000") (js "30")
                             None None false).
  { unfold mount, effect_chainId, effect_address, initialState, id, base_id.
    cbn [cells]. rewrite Ha. cbn.
    destruct (connectedChainId w =? 0)%N; reflexivity. }
  assert (Hid : (0 < id < 2 ^ 53)%N).
  { unfold id. destruct (N.eqb_spec (connectedChainId w) 0); lia. }
  assert (Hparse : parseFields (String_of_N id) (js "1000000") (js "30")
                   = Normal (number_of_N id, 1000000%Z, number_of_N 30)).
  { unfold parseFields, BigInt. cbn [truthy_string js map list_ascii_of_string].
    change (StringToBigInt (js "1000000")) with (Some 1000000%Z).
    rewrite JSFacts.Number_String_of_N. unfold or_number.
    rewrite (number_of_N_truthy Hid).
    change (Number (js "30")) with (number_of_N 30). reflexivity. }
  assert (Hdis : disabled w (cells (mount w)) = false).
  { rewrite Hcells. unfold disabled. rewrite Hc. reflexivity. }
  pose proof (advance_handleRequest (Normal pv) (cells (mount w)) (cells (mount w)))
    as HA.
  rewrite Hcells in HA. cbn [chainId allowance periodInDays] in HA.
  rewrite Hparse in HA. destruct HA as (k & _ & HA).
  unfold step. change (wallet (mount w)) with w. rewrite Hdis, Hcells, HA.
  eexists. split; [reflexivity | ]. cbn. auto.
Qed.

(** X8.  While a request is in flight the result of the previous one is gone:
    both cells are null, neither panel is rendered, and the button reads
    "Requesting...". *)
Theorem in_flight_display (c : Component) :
  reachable c -> pending c <> [] ->
  permission (cells c) = None /\ error (cells c) = None /\
  shows_permission (cells c) = false /\ shows_error (cells c) = false /\
  label (wallet c) (cells c) = js "Requesting...".
Proof.
  intros Hc Hne.
  destruct (reachable_Inv Hc) as [(Hp & _) | (p & k & _ & _ & Hl & Hpe & He)];
    [congruence | ].
  unfold shows_permission, shows_error, label. rewrite Hpe, He, Hl. auto.
Qed.

(** X9.  Only a click calls the SDK: in the rendered component an edit of a
    field, a wallet change or the settlement of a promise makes no SDK call
    and starts no request. *)
Theorem only_clicks_call_the_sdk (c c' : Component) (e : Event) :
  reachable c -> step c e = Some c' ->
  (forall prov, e <> Click prov) ->
  calls c' = calls c /\ (List.length (pending c') <= List.length (pending c))%nat.
Proof.
  intros Hc Hs Hn. destruct e; unfold step in Hs.
  1-7: injection Hs as <-; cbn; auto.
  - exfalso. apply (Hn prov). reflexivity.
  - destruct (reachable_Inv Hc) as [(Hp & _) | (p & k & Hp & Hk & _)];
      rewrite Hp in Hs.
    + destruct i; discriminate.
    + destruct i as [ | i]; [ | destruct i; discriminate ].
      cbn [nth_error] in Hs. rewrite Hk in Hs. injection Hs as <-.
      rewrite Hp. cbn. rewrite app_nil_r. auto.
Qed.

(** X10.  The two effects change nothing when they first run after mounting:
    the cells after mount are the initial values given to [useState]. *)
Theorem mount_effects_change_nothing (w : Wallet) :
  cells (mount w) = initialState w.
Proof.
  unfold mount, effect_chainId, effect_address, initialState. cbn [cells].
  destruct (address w) as [a | ]; cbn;
    destruct (connectedChainId w =? 0)%N; reflexivity.
Qed.

(** X12.  A wallet change keeps what the user typed unless a new value
    arrives: the account cell is kept when the address becomes undefined (a
    disconnect) or is unchanged, the chain id cell when the chain id is 0 or
    unchanged; and a wallet change never touches the panels, [loading], the
    request in flight or the SDK. *)
Theorem wallet_change_keeps_edits (c c' : Component) (w : Wallet) :
  step c (WalletChange w) = Some c' ->
  (address w = None \/ address w = address (wallet c) ->
   account (cells c') = account (cells c)) /\
  (connectedChainId w = 0%N \/ connectedChainId w = connectedChainId (wallet c) ->
   chainId (cells c') = chainId (cells c)) /\
  pending c' = pending c /\ calls c' = calls c /\
  permission (cells c') = permission (cells c) /\
  error (cells c') = error (cells c) /\
  loading (cells c') = loading (cells c).
Proof.
  intros H. injection H as <-. cbn [cells pending calls].
  destruct (run_effects_frame (wallet c) w (cells c)) as (_ & _ & _ & _ & E5 & E6 & E7).
  repeat split; auto.
  - intros [Hn | He]; unfold run_effects, effect_address, effect_chainId.
    + rewrite Hn.
      destruct (address_eqb _ _); destruct (_ =? _)%N; try destruct (_ =? _)%N;
        reflexivity.
    + rewrite He. rewrite (proj2 (address_eqb_eq _ _) eq_refl).
      destruct (_ =? _)%N; try destruct (_ =? _)%N; reflexivity.
  - intros [Hz | He]; unfold run_effects, effect_address, effect_chainId.
    + rewrite Hz. cbn [N.eqb].
      destruct (address_eqb _ _); destruct (address w) as [a | ];
        destruct (_ =? _)%N; reflexivity.
    + rewrite He, N.eqb_refl.
      destruct (address_eqb _ _); destruct (address w) as [a | ]; reflexivity.
Qed.

(** X11.  An allowance that is empty or only white space is read as [0n]: the
    three parsing lines complete normally with an allowance of zero. *)
Theorem blank_allowance_is_zero (chainId allowance periodInDays : jsstring) :
  trim allowance = [] ->
  exists parsedChainId parsedPeriod,
    parseFields chainId allowance periodInDays
    = Normal (parsedChainId, 0%Z, parsedPeriod).
Proof.
  intros H. unfold parseFields, BigInt, StringToBigInt. rewrite H.
  destruct allowance; eexists; eexists; reflexivity.
Qed.

End MoreProperties.

(** *** The properties above on concrete inputs *)

Lemma clicked_pending : pending (Demo.after Demo.clicked) <> [].
Proof.
  intros E. apply (f_equal (@List.length _)) in E. vm_compute in E. discriminate E.
Qed.

Lemma settlement_shows_result_witness :
  exists c',
    step (Demo.after Demo.clicked)
         (Settle 0 (@Resolved Demo.host Demo.response) Demo.provider_ok) = Some c' /\
    pending c' = [] /\ calls c' = calls (Demo.after Demo.clicked) /\
    loading (cells c') = false /\
    account (cells c') = account (cells (Demo.after Demo.clicked)) /\
    spender (cells c') = spender (cells (Demo.after Demo.clicked)) /\
    token (cells c') = token (cells (Demo.after Demo.clicked)) /\
    chainId (cells c') = chainId (cells (Demo.after Demo.clicked)) /\
    allowance (cells c') = allowance (cells (Demo.after Demo.clicked)) /\
    periodInDays (cells c') = periodInDays (cells (Demo.after Demo.clicked)) /\
    permission (cells c') = Some (JSON.stringify2 Demo.response) /\
    error (cells c') = None.
Proof.
  exact (@settlement_shows_result Demo.host (Demo.after Demo.clicked)
           (@Resolved Demo.host Demo.response) Demo.provider_ok
           (Demo_reachable Demo.clicked) clicked_pending).
Defined.

Lemma malformed_allowance_makes_no_call_witness :
  made (run Demo.provider_ok Demo.resolves
            (handleRequest (setAllowance (js "1.5") Demo.ready)
                           (setAllowance (js "1.5") Demo.ready))) = [] /\
  error (final (run Demo.provider_ok Demo.resolves
                    (handleRequest (setAllowance (js "1.5") Demo.ready)
                                   (setAllowance (js "1.5") Demo.ready))))
    = Some (js "Cannot convert 1.5 to a BigInt") /\
  permission (final (run Demo.provider_ok Demo.resolves
                         (handleRequest (setAllowance (js "1.5") Demo.ready)
                                        (setAllowance (js "1.5") Demo.ready)))) = None /\
  loading (final (run Demo.provider_ok Demo.resolves
                      (handleRequest (setAllowance (js "1.5") Demo.ready)
                                     (setAllowance (js "1.5") Demo.ready)))) = false.
Proof.
  apply (@malformed_allowance_makes_no_call Demo.host Demo.provider_ok Demo.resolves
           (setAllowance (js "1.5") Demo.ready) (setAllowance (js "1.5") Demo.ready)).
  - discriminate.
  - vm_compute. reflexivity.
Defined.

Lemma provider_failure_makes_no_request_witness :
  made (run Demo.provider_fails Demo.resolves (handleRequest Demo.ready Demo.ready))
    = [Call_getProvider] /\
  requests (made (run Demo.provider_fails Demo.resolves
                      (handleRequest Demo.ready Demo.ready))) = 0%nat /\
  error (final (run Demo.provider_fails Demo.resolves
                    (handleRequest Demo.ready Demo.ready)))
    = Some (js "provider unavailable") /\
  permission (final (run Demo.provider_fails Demo.resolves
                         (handleRequest Demo.ready Demo.ready))) = None /\
  loading (final (run Demo.provider_fails Demo.resolves
                      (handleRequest Demo.ready Demo.ready))) = false.
Proof.
  apply (@provider_failure_makes_no_request Demo.host Demo.resolves
           Demo.ready Demo.ready (ErrorObj (js "provider unavailable"))).
  right. vm_compute. discriminate.
Defined.

Lemma request_carries_the_form_witness :
  p_account Demo.request = account Demo.ready /\
  p_spender Demo.request = spender Demo.ready /\
  p_token Demo.request = token Demo.ready /\
  p_chainId Demo.request = or_number (Number (chainId Demo.ready)) (number_of_N 8453) /\
  p_periodInDays Demo.request
    = or_number (Number (periodInDays Demo.ready)) (S754_zero false) /\
  (allowance Demo.ready = [] -> p_allowance Demo.request = 0%Z) /\
  (allowance Demo.ready <> [] ->
   StringToBigInt (allowance Demo.ready) = Some (p_allowance Demo.request)) /\
  Demo.provider_ok = Normal (p_provider Demo.request).
Proof.
  apply (@request_carries_the_form Demo.host Demo.provider_ok Demo.resolves
           Demo.ready Demo.ready Demo.request).
  right; left; reflexivity.
Defined.

Lemma chain_id_reaches_the_sdk_witness :
  p_chainId Demo.request = number_of_N 8453 /\
  exists m e, p_chainId Demo.request = S754_finite false m e /\ (e <= 0)%Z /\
              (Zpos m = 8453 * 2 ^ (- e))%Z.
Proof.
  apply (@chain_id_reaches_the_sdk Demo.host Demo.provider_ok Demo.resolves
           Demo.connected Demo.ready Demo.request).
  - split; reflexivity.
  - right; left; reflexivity.
Defined.

Lemma fresh_form_reaches_the_sdk_witness :
  exists c',
    step (mount Demo.connected) (Click Demo.provider_ok) = Some c' /\
    List.length (pending c') = 1%nat /\
    loading (cells c') = true /\
    calls c' = [Call_getProvider; Call_requestSpendPermission Demo.request].
Proof.
  apply (@fresh_form_reaches_the_sdk Demo.host Demo.connected Demo.owner tt).
  - reflexivity.
  - reflexivity.
  - reflexivity.
Defined.

Lemma in_flight_display_witness :
  permission (cells (Demo.after Demo.clicked)) = None /\
  error (cells (Demo.after Demo.clicked)) = None /\
  shows_permission (cells (Demo.after Demo.clicked)) = false /\
  shows_error (cells (Demo.after Demo.clicked)) = false /\
  label (wallet (Demo.after Demo.clicked)) (cells (Demo.after Demo.clicked))
    = js "Requesting...".
Proof.
  exact (@in_flight_display Demo.host (Demo.after Demo.clicked)
           (Demo_reachable Demo.clicked) clicked_pending).
Defined.

Lemma only_clicks_call_the_sdk_witness :
  calls (Demo.after (Demo.clicked ++ [EditAllowance (js "5")]))
    = calls (Demo.after Demo.clicked) /\
  (List.length (pending (Demo.after (Demo.clicked ++ [EditAllowance (js "5")])))
   <= List.length (pending (Demo.after Demo.clicked)))%nat.
Proof.
  apply (@only_clicks_call_the_sdk Demo.host (Demo.after Demo.clicked)
           (Demo.after (Demo.clicked ++ [EditAllowance (js "5")]))
           (EditAllowance (js "5"))).
  - apply Demo_reachable.
  - reflexivity.
  - discriminate.
Defined.

Lemma blank_allowance_is_zero_witness :
  exists parsedChainId parsedPeriod,
    @parseFields Demo.host (js "8453") (js "  ") (js "30")
    = Normal (parsedChainId, 0%Z, parsedPeriod).
Proof.
  apply (@blank_allowance_is_zero Demo.host (js "8453") (js "  ") (js "30")).
  vm_compute. reflexivity.
Defined.

Lemma wallet_change_keeps_edits_witness :
  account (cells (Demo.after (Demo.account_cleared ++ [EditAccount (js "0xabc");
                                                       WalletChange Demo.disconnected])))
  = js "0xabc".
Proof.
  refine (proj1 (@wallet_change_keeps_edits Demo.host
                   (Demo.after (Demo.account_cleared ++ [EditAccount (js "0xabc")]))
                   (Demo.after (Demo.account_cleared
                                  ++ [EditAccount (js "0xabc");
                                      WalletChange Demo.disconnected]))
                   Demo.disconnected _) _).
  - reflexivity.
  - left. reflexivity.
Defined.

